(** * weight-tracker: a shallow embedding of the two Streamlit scripts

    The repository holds two programs:
    - [weight_tracker.py], the prototype, which keeps its log in Streamlit's
      session state and shows a rolling trend, and
    - [health_tracker.py], which stores weight and blood-pressure readings in
      a SQLite file and derives chart ranges from what it loads.

    Conventions of the embedding.
    - Python floats are idealised as exact rationals ([Q]); "no value"
      (None / NULL / NaN) is [None] of an option type.  Rounding is not
      modelled.
    - Python ints are [Z].
    - A SQLite table is the list of its rows in rowid order together with
      its AUTOINCREMENT counter.
    - A script run is a function from the widget values and the stored
      state to the new stored state and what the page shows. *)

From Stdlib Require Import List ZArith QArith Qminmax Bool Arith Lia Lqa.
From Stdlib Require Import Strings.String Strings.Ascii.
From Stdlib Require Import Sorting.Sorted Sorting.Permutation.
Import ListNotations.

Local Open Scope string_scope.
Local Open Scope list_scope.

(* ================================================================= *)
(** ** Exceptions *)

(** The scripts can fail in two ways that matter here: SQLite reports a
    missing table, and [pd.to_datetime] rejects a malformed date text. *)
Inductive exn : Type :=
| OperationalError (msg : string)
| ValueError (msg : string).

Inductive result (A : Type) : Type :=
| Ok (a : A)
| Raise (e : exn).
Arguments Ok {A} a.
Arguments Raise {A} e.

Definition bind {A B : Type} (m : result A) (k : A -> result B) : result B :=
  match m with
  | Ok a => k a
  | Raise e => Raise e
  end.

Notation "x <- m ;; k" := (bind m (fun x => k))
  (at level 61, m at next level, right associativity).

Fixpoint mapM {A B : Type} (f : A -> result B) (l : list A) : result (list B) :=
  match l with
  | [] => Ok []
  | a :: l' => b <- f a ;; bs <- mapM f l' ;; Ok (b :: bs)
  end.

(* ================================================================= *)
(** ** Numbers *)

(** [x < y] on floats that are not NaN. *)
Definition Qltb (x y : Q) : bool := negb (Qle_bool y x).

(** A float that may be NaN. *)
Definition pyfloat : Type := option Q.

(** [x < y] where [x] may be NaN: every comparison with NaN is false. *)
Definition nan_ltb (x : pyfloat) (y : Q) : bool :=
  match x with
  | Some v => Qltb v y
  | None => false
  end.

Definition nan_add (x : pyfloat) (y : Q) : pyfloat := option_map (fun v => v + y) x.
Definition nan_sub (x : pyfloat) (y : Q) : pyfloat := option_map (fun v => v - y) x.

(* ================================================================= *)
(** ** [datetime.date] *)

Module PyDate.
Local Open Scope Z_scope.

Record date : Type := mkdate { year : Z; month : Z; day : Z }.

(** The values a [datetime.date] can hold (the day is further limited by
    the month; that refinement is not needed here). *)
Definition date_ok (d : date) : bool :=
  (1 <=? year d) && (year d <=? 9999) &&
  (1 <=? month d) && (month d <=? 12) &&
  (1 <=? day d) && (day d <=? 31).

(** Comparison of dates: year, then month, then day. *)
Definition compare (a b : date) : comparison :=
  match year a ?= year b with
  | Eq => match month a ?= month b with
          | Eq => day a ?= day b
          | c => c
          end
  | c => c
  end.

Definition leb (a b : date) : bool :=
  match compare a b with Gt => false | _ => true end.

Definition digit (n : Z) : ascii := ascii_of_N (Z.to_N (48 + n mod 10)).

(** [n] printed in [width] decimal digits, zero padded ("%04d", "%02d"). *)
Fixpoint zfill (width : nat) (n : Z) : string :=
  match width with
  | O => EmptyString
  | S w => String (digit (n / 10 ^ Z.of_nat w)) (zfill w n)
  end.

(** [date.isoformat()]: YYYY-MM-DD. *)
Definition isoformat (d : date) : string :=
  zfill 4 (year d) ++ "-" ++ zfill 2 (month d) ++ "-" ++ zfill 2 (day d).

(** Reading the text back, as [pd.to_datetime] does for this format. *)
Definition digit_value (c : ascii) : option Z :=
  let n := Z.of_N (N_of_ascii c) in
  if (48 <=? n) && (n <=? 57) then Some (n - 48) else None.

Fixpoint read_digits (width : nat) (acc : Z) (s : string) : option (Z * string) :=
  match width with
  | O => Some (acc, s)
  | S w =>
      match s with
      | EmptyString => None
      | String c s' =>
          match digit_value c with
          | Some v => read_digits w (10 * acc + v) s'
          | None => None
          end
      end
  end.

Definition expect_dash (s : string) : option string :=
  match s with
  | String "-"%char s' => Some s'
  | _ => None
  end.

Definition fromisoformat (s : string) : option date :=
  match read_digits 4 0 s with
  | Some (y, s1) =>
      match expect_dash s1 with
      | Some s2 =>
          match read_digits 2 0 s2 with
          | Some (m, s3) =>
              match expect_dash s3 with
              | Some s4 =>
                  match read_digits 2 0 s4 with
                  | Some (d, EmptyString) =>
                      let r := mkdate y m d in
                      if date_ok r then Some r else None
                  | _ => None
                  end
              | None => None
              end
          | None => None
          end
      | None => None
      end
  | None => None
  end.

End PyDate.

(* ================================================================= *)
(** ** Stable sorting

    [ORDER BY date ASC] runs over a table scan in rowid order and SQLite's
    sorter keeps rows with equal keys in scan order; [sort_values] is
    modelled by the same insertion sort.  Pandas' default sort kind does not
    promise the order of equal keys, so nothing below relies on it for
    [sort_values]. *)

Section StableSort.
Context {A : Type} (leb : A -> A -> bool).

Fixpoint insert_sorted (x : A) (l : list A) : list A :=
  match l with
  | [] => [x]
  | y :: l' => if leb x y then x :: y :: l' else y :: insert_sorted x l'
  end.

Definition stable_sort (l : list A) : list A := fold_right insert_sorted [] l.
End StableSort.

(* ================================================================= *)
(** ** Streamlit widgets *)

Module Streamlit.

(** [st.date_input(label, value=v)]: the picked date, [v] when untouched. *)
Definition date_input (value : PyDate.date) (picked : option PyDate.date) : PyDate.date :=
  match picked with Some d => d | None => value end.

(** [st.number_input(label, min_value=m, ...)]: the typed number, and the
    minimum when the field is left alone. *)
Definition number_input {A : Type} (min_value : A) (typed : option A) : A :=
  match typed with Some v => v | None => min_value end.

(** [st.text_area(label, placeholder=...)]: the typed text, the empty
    string when left blank. *)
Definition text_area (typed : option string) : string :=
  match typed with Some s => s | None => "" end.

(** What the page shows in reaction to a form: [st.success] (its formatted
    text is not modelled), [st.warning], [st.info]. *)
Inductive alert : Type :=
| success
| warning (msg : string)
| info (msg : string).

End Streamlit.

(* ================================================================= *)
(** ** Pandas *)

Module Pandas.

Inductive cell : Type :=
| NaN
| Int (z : Z)
| Float (q : Q)
| Str (s : string)
| Timestamp (d : PyDate.date).

Definition float_cell (x : pyfloat) : cell :=
  match x with Some q => Float q | None => NaN end.

Definition str_cell (x : option string) : cell :=
  match x with Some s => Str s | None => NaN end.

Record DataFrame : Type := mkframe { columns : list string; values : list (list cell) }.

(** [df.rename(columns=mapping)] on the column labels. *)
Fixpoint lookup_label (mapping : list (string * string)) (c : string) : string :=
  match mapping with
  | [] => c
  | (old, new) :: rest => if String.eqb old c then new else lookup_label rest c
  end.

Definition rename (mapping : list (string * string)) (df : DataFrame) : DataFrame :=
  mkframe (map (lookup_label mapping) (columns df)) (values df).

(** [df[name] = series]: a new column at the right. *)
Fixpoint zip_append (rows : list (list cell)) (col : list cell) : list (list cell) :=
  match rows, col with
  | r :: rows', c :: col' => (r ++ [c]) :: zip_append rows' col'
  | _, _ => []
  end.

Definition assign (name : string) (col : list cell) (df : DataFrame) : DataFrame :=
  mkframe (columns df ++ [name]) (zip_append (values df) col).

(** [df.to_csv(index=False)]: the header line and one line per row, in the
    frame's order.  How a cell is printed is not modelled. *)
Record csv_file : Type := mkcsv { header : list string; lines : list (list cell) }.

Definition to_csv (df : DataFrame) : csv_file := mkcsv (columns df) (values df).

Definition header_line (c : csv_file) : string := String.concat "," (header c).

(** [Series.min()] and [Series.max()]: NaN entries are skipped, and the
    result is NaN when nothing is left. *)
Section Reductions.
Context {A : Type} (ltb : A -> A -> bool).

Definition pick_min (acc x : option A) : option A :=
  match acc, x with
  | None, _ => x
  | Some _, None => acc
  | Some a, Some v => if ltb v a then Some v else Some a
  end.

Definition pick_max (acc x : option A) : option A :=
  match acc, x with
  | None, _ => x
  | Some _, None => acc
  | Some a, Some v => if ltb a v then Some v else Some a
  end.

Definition min (s : list (option A)) : option A := fold_left pick_min s None.
Definition max (s : list (option A)) : option A := fold_left pick_max s None.
End Reductions.

(** [Series.rolling(window=w).mean()], as the library computes it for a
    fixed window: one pass that adds the entering value to a running sum
    and removes the leaving one; [min_periods] defaults to the window. *)
Record mean_state : Type := mkstate { nobs : nat; sum_x : Q }.

Definition mean_init : mean_state := mkstate 0 0.

Definition add_mean (val : pyfloat) (st : mean_state) : mean_state :=
  match val with
  | Some v => mkstate (S (nobs st)) (sum_x st + v)
  | None => st
  end.

Definition remove_mean (val : pyfloat) (st : mean_state) : mean_state :=
  match val with
  | Some v => mkstate (pred (nobs st)) (sum_x st - v)
  | None => st
  end.

Definition calc_mean (minp : nat) (st : mean_state) : pyfloat :=
  if (minp <=? nobs st)%nat && (0 <? nobs st)%nat
  then Some (sum_x st / inject_Z (Z.of_nat (nobs st)))
  else None.

Definition window_start (window i : nat) : nat := (i + 1 - window)%nat.
Definition window_end (i : nat) : nat := (i + 1)%nat.

Definition over_range (f : pyfloat -> mean_state -> mean_state)
    (vals : list pyfloat) (lo hi : nat) (st : mean_state) : mean_state :=
  fold_left (fun st j => f (nth j vals None) st) (seq lo (hi - lo)) st.

Definition roll_step (window minp : nat) (vals : list pyfloat)
    (acc : mean_state * list pyfloat) (i : nat) : mean_state * list pyfloat :=
  let s := window_start window i in
  let e := window_end i in
  let st :=
    if (i =? 0)%nat || (window_end (i - 1) <=? s)%nat
    then over_range add_mean vals s e mean_init
    else over_range add_mean vals (window_end (i - 1)) e
           (over_range remove_mean vals (window_start window (i - 1)) s (fst acc)) in
  (st, snd acc ++ [calc_mean minp st]).

Definition roll_mean (window minp : nat) (vals : list pyfloat) : list pyfloat :=
  snd (fold_left (roll_step window minp vals) (seq 0 (List.length vals)) (mean_init, [])).

Definition rolling_mean (window : nat) (vals : list pyfloat) : list pyfloat :=
  roll_mean window window vals.

End Pandas.

(* ================================================================= *)
(** ** The SQLite file [data/health_data.db] *)

Module Sqlite.
Local Open Scope Z_scope.

(** weights(id INTEGER PRIMARY KEY AUTOINCREMENT, date TEXT NOT NULL,
    weight REAL NOT NULL, body_fat REAL, notes TEXT) *)
Record weight_row : Type := mk_weight_row {
  w_id : Z;
  w_date : string;
  w_weight : Q;
  w_body_fat : option Q;
  w_notes : option string
}.

(** blood_pressure(id INTEGER PRIMARY KEY AUTOINCREMENT, date TEXT NOT NULL,
    systolic INTEGER NOT NULL, diastolic INTEGER NOT NULL, notes TEXT) *)
Record bp_row : Type := mk_bp_row {
  b_id : Z;
  b_date : string;
  b_systolic : Z;
  b_diastolic : Z;
  b_notes : option string
}.

Definition weights_columns : list string := ["id"; "date"; "weight"; "body_fat"; "notes"].
Definition blood_pressure_columns : list string :=
  ["id"; "date"; "systolic"; "diastolic"; "notes"].

(** What both tables share: the rowid and the date text. *)
Class Row (R : Type) : Type := { rowid : R -> Z; date_text : R -> string }.

#[global] Instance weight_row_Row : Row weight_row :=
  {| rowid := w_id; date_text := w_date |}.
#[global] Instance bp_row_Row : Row bp_row :=
  {| rowid := b_id; date_text := b_date |}.

(** A table: its rows in rowid order, and the largest rowid ever handed
    out (the table's entry in sqlite_sequence). *)
Record table (R : Type) : Type := mk_table { rows : list R; seq : Z }.
Arguments mk_table {R} rows seq.
Arguments rows {R} t.
Arguments seq {R} t.

(** The file.  A table that was never created is [None]; a fresh file has
    neither. *)
Record database : Type := mk_database {
  weights : option (table weight_row);
  blood_pressure : option (table bp_row)
}.

Definition fresh : database := mk_database None None.

(** A connection sees the file as it was committed and the work of its
    open transaction. *)
Record connection : Type := mk_connection { committed : database; working : database }.

Definition connect (file : database) : connection := mk_connection file file.
Definition commit (conn : connection) : connection :=
  mk_connection (working conn) (working conn).
(** Closing leaves the file as last committed: uncommitted work is lost. *)
Definition close (conn : connection) : database := committed conn.

(** CREATE TABLE IF NOT EXISTS *)
Definition create_if_not_exists {R : Type} (t : option (table R)) : option (table R) :=
  match t with
  | Some t => Some t
  | None => Some (mk_table [] 0)
  end.

Definition max_rowid {R : Type} `{Row R} (l : list R) : Z :=
  fold_right (fun r m => Z.max (rowid r) m) 0 l.

(** AUTOINCREMENT: one more than the largest rowid that ever existed. *)
Definition next_rowid {R : Type} `{Row R} (t : table R) : Z :=
  Z.max (max_rowid (rows t)) (seq t) + 1.

Definition insert_row {R : Type} `{Row R} (mk : Z -> R) (t : table R) : table R :=
  let id := next_rowid t in
  mk_table (rows t ++ [mk id]) id.

(** Text comparison of the BINARY collation: byte by byte. *)
Definition text_leb (a b : string) : bool := String.leb a b.

Definition date_leb {R : Type} `{Row R} (a b : R) : bool :=
  text_leb (date_text a) (date_text b).

(** SELECT * FROM t ORDER BY date ASC *)
Definition order_by_date_asc {R : Type} `{Row R} (t : table R) : list R :=
  stable_sort date_leb (rows t).

Definition no_such_table {A : Type} (name : string) : result A :=
  Raise (OperationalError ("no such table: " ++ name)).

(** [init_db()] *)
Definition init_db (file : database) : database :=
  let conn := connect file in
  let conn := mk_connection (committed conn)
                (mk_database (create_if_not_exists (weights (working conn)))
                             (blood_pressure (working conn))) in
  let conn := mk_connection (committed conn)
                (mk_database (weights (working conn))
                             (create_if_not_exists (blood_pressure (working conn)))) in
  close (commit conn).

(** [insert_weight(entry_date, weight, body_fat, notes)]; [body_fat] and
    [notes] may be Python's None. *)
Definition insert_weight (entry_date : string) (weight : Q) (body_fat : option Q)
    (notes : option string) (file : database) : result database :=
  let conn := connect file in
  conn <- match weights (working conn) with
          | Some t =>
              Ok (mk_connection (committed conn)
                    (mk_database
                       (Some (insert_row
                                (fun id => mk_weight_row id entry_date weight body_fat notes) t))
                       (blood_pressure (working conn))))
          | None => no_such_table "weights"
          end ;;
  Ok (close (commit conn)).

(** [insert_bp(entry_date, systolic, diastolic, notes)] *)
Definition insert_bp (entry_date : string) (systolic diastolic : Z)
    (notes : option string) (file : database) : result database :=
  let conn := connect file in
  conn <- match blood_pressure (working conn) with
          | Some t =>
              Ok (mk_connection (committed conn)
                    (mk_database
                       (weights (working conn))
                       (Some (insert_row
                                (fun id => mk_bp_row id entry_date systolic diastolic notes) t))))
          | None => no_such_table "blood_pressure"
          end ;;
  Ok (close (commit conn)).

(** [load_weights()] *)
Definition load_weights (file : database) : result (list weight_row) :=
  let conn := connect file in
  match weights (working conn) with
  | Some t => Ok (order_by_date_asc t)
  | None => no_such_table "weights"
  end.

(** [load_bp()] *)
Definition load_bp (file : database) : result (list bp_row) :=
  let conn := connect file in
  match blood_pressure (working conn) with
  | Some t => Ok (order_by_date_asc t)
  | None => no_such_table "blood_pressure"
  end.

(** The number of stored weight entries. *)
Definition count_weights (file : database) : nat :=
  match weights file with
  | Some t => List.length (rows t)
  | None => O
  end.

Definition count_bp (file : database) : nat :=
  match blood_pressure file with
  | Some t => List.length (rows t)
  | None => O
  end.

Definition stored_weights (file : database) : list weight_row :=
  match weights file with Some t => rows t | None => [] end.

Definition stored_bp (file : database) : list bp_row :=
  match blood_pressure file with Some t => rows t | None => [] end.

End Sqlite.

(* ================================================================= *)
(** ** [health_tracker.py] *)

Module HealthTracker.
Import PyDate Streamlit Pandas Sqlite.

(** *** The weight form *)

(** What the user did with the widgets of the weight form; [None] is a
    widget left untouched. *)
Record weight_form : Type := mk_weight_form {
  wf_date : option date;
  wf_weight : option Q;
  wf_bodyfat : option Q;
  wf_notes : option string;
  wf_add_button : bool
}.

Definition invalid_weight : string := "Please enter a valid weight before saving.".

Definition submit_weight (today : date) (f : weight_form) (file : database)
  : result (database * option alert) :=
  let entry_date := date_input today (wf_date f) in
  let weight := number_input 0%Q (wf_weight f) in
  let bodyfat := number_input 0%Q (wf_bodyfat f) in
  let notes := text_area (wf_notes f) in
  let add_button := wf_add_button f in
  if add_button && Qltb 0 weight then
    file' <- insert_weight (isoformat entry_date) weight
               (if Qltb 0 bodyfat then Some bodyfat else None) (Some notes) file ;;
    Ok (file', Some success)
  else if add_button then
    Ok (file, Some (warning invalid_weight))
  else
    Ok (file, None).

(** *** The weight data after [pd.to_datetime] and [rename] *)

Record weight_record : Type := mk_weight_record {
  id : Z;
  Date : date;
  Weight : Q;
  Body_Fat : option Q;
  Notes : option string
}.

(** [pd.to_datetime] on one date text; only the ISO form the program
    writes is recognised. *)
Definition to_datetime (s : string) : result date :=
  match fromisoformat s with
  | Some d => Ok d
  | None => Raise (ValueError ("Unknown datetime string format: " ++ s))
  end.

Definition weight_record_of (r : weight_row) : result weight_record :=
  d <- to_datetime (w_date r) ;;
  Ok (mk_weight_record (w_id r) d (w_weight r) (w_body_fat r) (w_notes r)).

Definition weight_renames : list (string * string) :=
  [("date", "Date"); ("weight", "Weight"); ("body_fat", "Body Fat %"); ("notes", "Notes")].

Definition weight_cells (r : weight_record) : list cell :=
  [Int (id r); Timestamp (Date r); Float (Weight r); float_cell (Body_Fat r);
   str_cell (Notes r)].

(** The frame [data] as the page uses it. *)
Definition weight_frame (data : list weight_record) : DataFrame :=
  rename weight_renames (mkframe weights_columns (map weight_cells data)).

Definition Weight_column (data : list weight_record) : list pyfloat :=
  map (fun r => Some (Weight r)) data.
Definition Body_Fat_column (data : list weight_record) : list pyfloat :=
  map Body_Fat data.

(** *** Axis ranges of the weight page *)

Definition targetWeight : Q := 100.
Definition minTargetBodyFat : Q := 11.
Definition maxTargetBodyFat : Q := 20.

Definition minWeight (target : Q) (data : list weight_record) : pyfloat :=
  if nan_ltb (Pandas.min Qltb (Weight_column data)) target
  then Pandas.min Qltb (Weight_column data)
  else Some target.

Definition maxWeight (data : list weight_record) : pyfloat :=
  Pandas.max Qltb (Weight_column data).

Definition weight_yaxis_range (target : Q) (data : list weight_record) : pyfloat * pyfloat :=
  (nan_sub (minWeight target data) 10, nan_add (maxWeight data) 10).

Definition minBodyFat (minTarget : Q) (data : list weight_record) : pyfloat :=
  if nan_ltb (Pandas.min Qltb (Body_Fat_column data)) minTarget
  then Pandas.min Qltb (Body_Fat_column data)
  else Some minTarget.

Definition maxBodyFat (data : list weight_record) : pyfloat :=
  Pandas.max Qltb (Body_Fat_column data).

Definition bodyfat_yaxis_range (minTarget maxTarget : Q) (data : list weight_record)
  : pyfloat * pyfloat :=
  (nan_sub (minBodyFat minTarget data) 5, nan_add (maxBodyFat data) 5).

(** *** The weight page *)

Definition weight_table_columns : list string := ["Date"; "Weight"; "Body Fat %"; "Notes"].

Record weight_charts : Type := mk_weight_charts {
  weight_range : pyfloat * pyfloat;
  weight_target_line : Q;
  bodyfat_range : pyfloat * pyfloat;
  bodyfat_band : Q * Q;
  weight_table : list string;
  csv : csv_file
}.

Inductive weight_body : Type :=
| weight_dashboard (c : weight_charts)
| weight_no_data (a : alert).

Definition no_weights : string := "No data yet. Add your first entry above!".

Definition render_weights (loaded : list weight_row) : result weight_body :=
  match loaded with
  | [] => Ok (weight_no_data (info no_weights))
  | _ :: _ =>
      data <- mapM weight_record_of loaded ;;
      Ok (weight_dashboard
            (mk_weight_charts
               (weight_yaxis_range targetWeight data)
               targetWeight
               (bodyfat_yaxis_range minTargetBodyFat maxTargetBodyFat data)
               (minTargetBodyFat, maxTargetBodyFat)
               weight_table_columns
               (to_csv (weight_frame data))))
  end.

(** What a section shows: the alert of the form, if any, and the display
below it, unless the display raised. *)
Record view (B : Type) : Type := mk_view { form_alert : option alert; body : result B }.
Arguments mk_view {B} form_alert body.
Arguments form_alert {B} v.
Arguments body {B} v.

(** The weight section of the script: the form, then the display.  The
    file keeps what was committed even when the display raises. *)
Definition weight_section (today : date) (f : weight_form) (file : database)
  : database * view weight_body :=
  match submit_weight today f file with
  | Raise e => (file, mk_view None (Raise e))
  | Ok (file', a) =>
      (file', mk_view a (data <- load_weights file' ;; render_weights data))
  end.

(** *** The blood-pressure form *)

Record bp_form : Type := mk_bp_form {
  bf_date : option date;
  bf_systolic : option Z;
  bf_diastolic : option Z;
  bf_notes : option string;
  bf_add_bp_button : bool
}.

Definition invalid_bp : string := "Please enter valid blood pressure values before saving.".

Definition submit_bp (today : date) (f : bp_form) (file : database)
  : result (database * option alert) :=
  let entry_date := date_input today (bf_date f) in
  let systolic := number_input 0%Z (bf_systolic f) in
  let diastolic := number_input 0%Z (bf_diastolic f) in
  let notes := text_area (bf_notes f) in
  let add_bp_button := bf_add_bp_button f in
  if add_bp_button && (0 <? systolic)%Z && (0 <? diastolic)%Z then
    file' <- insert_bp (isoformat entry_date) systolic diastolic (Some notes) file ;;
    Ok (file', Some success)
  else if add_bp_button then
    Ok (file, Some (warning invalid_bp))
  else
    Ok (file, None).

(** *** The blood-pressure data after [pd.to_datetime] and [rename] *)

Record bp_record : Type := mk_bp_record {
  bp_id : Z;
  bp_Date : date;
  Systolic : Z;
  Diastolic : Z;
  bp_Notes : option string
}.

Definition bp_record_of (r : bp_row) : result bp_record :=
  d <- to_datetime (b_date r) ;;
  Ok (mk_bp_record (b_id r) d (b_systolic r) (b_diastolic r) (b_notes r)).

Definition bp_renames : list (string * string) :=
  [("date", "Date"); ("systolic", "Systolic"); ("diastolic", "Diastolic"); ("notes", "Notes")].

Definition bp_cells (r : bp_record) : list cell :=
  [Int (bp_id r); Timestamp (bp_Date r); Int (Systolic r); Int (Diastolic r);
   str_cell (bp_Notes r)].

Definition bp_frame (data_bp : list bp_record) : DataFrame :=
  rename bp_renames (mkframe blood_pressure_columns (map bp_cells data_bp)).

Definition Systolic_column (data_bp : list bp_record) : list (option Z) :=
  map (fun r => Some (Systolic r)) data_bp.
Definition Diastolic_column (data_bp : list bp_record) : list (option Z) :=
  map (fun r => Some (Diastolic r)) data_bp.

(** *** Axis range of the blood-pressure page *)

Definition minTargetSystolic : Z := 100.
Definition maxTargetSystolic : Z := 120.
Definition minTargetDiastolic : Z := 60.
Definition maxTargetDiastolic : Z := 80.

(** [x < y] where the integer statistic [x] may be missing. *)
Definition nan_ltbZ (x : option Z) (y : Z) : bool :=
  match x with Some v => (v <? y)%Z | None => false end.

Definition minSystolic (data_bp : list bp_record) : option Z :=
  Pandas.min Z.ltb (Systolic_column data_bp).
Definition maxSystolic (data_bp : list bp_record) : option Z :=
  Pandas.max Z.ltb (Systolic_column data_bp).
Definition minDiastolic (minTargetDia : Z) (data_bp : list bp_record) : option Z :=
  if nan_ltbZ (Pandas.min Z.ltb (Diastolic_column data_bp)) minTargetDia
  then Pandas.min Z.ltb (Diastolic_column data_bp)
  else Some minTargetDia.
Definition maxDiastolic (data_bp : list bp_record) : option Z :=
  Pandas.max Z.ltb (Diastolic_column data_bp).

(** The four targets are the script's constants; the range reads one. *)
Definition pressure_yaxis_range (minTargetSys maxTargetSys minTargetDia maxTargetDia : Z)
    (data_bp : list bp_record) : option Z * option Z :=
  (option_map (fun v => v - 5)%Z (minDiastolic minTargetDia data_bp),
   option_map (fun v => v + 10)%Z (maxSystolic data_bp)).

(** *** The blood-pressure page *)

Definition bp_table_columns : list string := ["Date"; "Systolic"; "Diastolic"; "Notes"].

Record bp_charts : Type := mk_bp_charts {
  pressure_range : option Z * option Z;
  systolic_band : Z * Z;
  diastolic_band : Z * Z;
  bp_table : list string;
  csv_bp : csv_file
}.

Inductive bp_body : Type :=
| bp_dashboard (c : bp_charts)
| bp_no_data (a : alert).

Definition no_bp : string := "No blood pressure readings yet. Add your first entry above!".

Definition render_bp (loaded : list bp_row) : result bp_body :=
  match loaded with
  | [] => Ok (bp_no_data (info no_bp))
  | _ :: _ =>
      data_bp <- mapM bp_record_of loaded ;;
      Ok (bp_dashboard
            (mk_bp_charts
               (pressure_yaxis_range minTargetSystolic maxTargetSystolic
                  minTargetDiastolic maxTargetDiastolic data_bp)
               (minTargetSystolic, maxTargetSystolic)
               (minTargetDiastolic, maxTargetDiastolic)
               bp_table_columns
               (to_csv (bp_frame data_bp))))
  end.

Definition bp_section (today : date) (f : bp_form) (file : database)
  : database * view bp_body :=
  match submit_bp today f file with
  | Raise e => (file, mk_view None (Raise e))
  | Ok (file', a) =>
      (file', mk_view a (data_bp <- load_bp file' ;; render_bp data_bp))
  end.

(** *** One run of the script *)

(** The sidebar radio and the form of the chosen section. *)
Inductive interaction : Type :=
| Weight_Tracker (f : weight_form)
| Blood_Pressure_Tracker (f : bp_form).

Inductive page : Type :=
| weight_page (v : view weight_body)
| bp_page (v : view bp_body).

Definition page_alert (p : page) : option alert :=
  match p with
  | weight_page v => form_alert v
  | bp_page v => form_alert v
  end.

Definition run (today : date) (i : interaction) (file : database) : database * page :=
  let file := init_db file in
  match i with
  | Weight_Tracker f =>
      let (file', v) := weight_section today f file in (file', weight_page v)
  | Blood_Pressure_Tracker f =>
      let (file', v) := bp_section today f file in (file', bp_page v)
  end.

(** The stores the program can produce: start from a fresh file and run
    the script any number of times. *)
Inductive produced : database -> Prop :=
| produced_fresh : produced fresh
| produced_run today i file : produced file -> produced (fst (run today i file)).

End HealthTracker.

(* ================================================================= *)
(** ** [weight_tracker.py] *)

Module WeightTracker.
Import PyDate Streamlit Pandas.

(** One row of the frame [st.session_state.weight_log], whose columns are
    Date, Weight, Body Fat % and Notes. *)
Record entry : Type := mk_entry {
  Date : date;
  Weight : Q;
  Body_Fat : option Q;
  Notes : option string
}.

Definition weight_log : Type := list entry.
Definition log_columns : list string := ["Date"; "Weight"; "Body Fat %"; "Notes"].

(** [st.session_state], which holds at most the key "weight_log". *)
Definition session_state : Type := option weight_log.

Record form : Type := mk_form {
  f_date : option date;
  f_weight : option Q;
  f_bodyfat : option Q;
  f_notes : option string;
  f_add_button : bool
}.

Definition invalid_weight : string := "Please enter a valid weight before saving.".

(** if "weight_log" not in st.session_state: ... *)
Definition setup (ss : session_state) : weight_log :=
  match ss with
  | Some log => log
  | None => []
  end.

Definition submit (today : date) (f : form) (log : weight_log) : weight_log * option alert :=
  let entry_date := date_input today (f_date f) in
  let weight := number_input 0%Q (f_weight f) in
  let bodyfat := number_input 0%Q (f_bodyfat f) in
  let notes := text_area (f_notes f) in
  let add_button := f_add_button f in
  if add_button && Qltb 0 weight then
    let new_row := mk_entry entry_date weight
                     (if Qltb 0 bodyfat then Some bodyfat else None) (Some notes) in
    (log ++ [new_row], Some success)
  else if add_button then
    (log, Some (warning invalid_weight))
  else
    (log, None).

(** [weight_log.sort_values("Date")] *)
Definition sort_values_Date (log : weight_log) : list entry :=
  stable_sort (fun a b => PyDate.leb (Date a) (Date b)) log.

Definition Weight_column (data : list entry) : list pyfloat :=
  map (fun r => Some (Weight r)) data.

(** data["Weight"].rolling(window=3).mean() *)
Definition Trend (data : list entry) : list pyfloat :=
  rolling_mean 3 (Weight_column data).

Definition entry_cells (r : entry) : list cell :=
  [Timestamp (Date r); Float (Weight r); float_cell (Body_Fat r); str_cell (Notes r)].

(** [data] once the Trend column is assigned. *)
Definition frame (data : list entry) : DataFrame :=
  assign "Trend" (map float_cell (Trend data)) (mkframe log_columns (map entry_cells data)).

Definition table_columns : list string := ["Date"; "Weight"; "Body Fat %"; "Notes"].

Record charts : Type := mk_charts {
  trend : list pyfloat;
  table : list string;
  csv : csv_file
}.

Inductive body : Type :=
| dashboard (c : charts)
| no_data (a : alert).

Definition no_weights : string := "No data yet. Add your first entry above!".

Definition render (data : list entry) : body :=
  match data with
  | [] => no_data (info no_weights)
  | _ :: _ => dashboard (mk_charts (Trend data) table_columns (to_csv (frame data)))
  end.

(** One run of the script. *)
Definition run (today : date) (f : form) (ss : session_state)
  : session_state * (option alert * body) :=
  let log := setup ss in
  let (log', a) := submit today f log in
  let data := sort_values_Date log' in
  (Some log', (a, render data)).

(** The ordered sequence the page works from. *)
Definition listing (ss : session_state) : list entry :=
  sort_values_Date (setup ss).

(** The logs the program can produce within one session. *)
Inductive produced : session_state -> Prop :=
| produced_start : produced None
| produced_run today f ss : produced ss -> produced (fst (run today f ss)).

End WeightTracker.

(* ================================================================= *)
(** ** The machine the scripts run on *)

(** The SQLite file is on disk; Streamlit's session state lives in the
    memory of the server process. *)
Record world : Type := mk_world {
  file : Sqlite.database;
  session : WeightTracker.session_state
}.

(** Stopping and starting the application again: the disk stays, the memory
    of the process is gone. *)
Definition restart (w : world) : world := mk_world (file w) None.

(** What each program lists when it runs on a world, before any new entry:
    the health tracker initialises and loads, the prototype reads its
    session log. *)
Definition health_tracker_weights (w : world) : result (list Sqlite.weight_row) :=
  Sqlite.load_weights (Sqlite.init_db (file w)).

Definition health_tracker_bp (w : world) : result (list Sqlite.bp_row) :=
  Sqlite.load_bp (Sqlite.init_db (file w)).

Definition weight_tracker_weights (w : world) : list WeightTracker.entry :=
  WeightTracker.listing (session w).

(* ================================================================= *)
(** ** Summary statistics and log tables

    Below its charts each page shows summary metrics and the log as a
    table.  The texts of the metrics are formatted numbers; the numbers are
    what is defined here. *)

Module PandasOps.
Import PyDate Pandas.

Fixpoint dropna {A : Type} (s : list (option A)) : list A :=
  match s with
  | [] => []
  | Some v :: s' => v :: dropna s'
  | None :: s' => dropna s'
  end.

Definition sum (xs : list Q) : Q := fold_left Qplus xs 0.

(** [Series.mean()]: the mean of the values present, NaN when there is none. *)
Definition mean (s : list pyfloat) : pyfloat :=
  match dropna s with
  | [] => None
  | x :: xs => Some (sum (x :: xs) / inject_Z (Z.of_nat (List.length (x :: xs))))
  end.

(** [df.iloc[0]] and [df.iloc[-1]]; out of bounds on an empty frame. *)
Definition iloc_first {A : Type} (l : list A) : option A := nth_error l 0.
Definition iloc_last {A : Type} (l : list A) : option A := nth_error l (List.length l - 1).

(** The position of a column label; a label that is missing is a KeyError. *)
Fixpoint get_loc (name : string) (cols : list string) : option nat :=
  match cols with
  | [] => None
  | c :: cs => if String.eqb c name then Some O else option_map S (get_loc name cs)
  end.

Fixpoint get_locs (names cols : list string) : option (list nat) :=
  match names with
  | [] => Some []
  | n :: ns =>
      match get_loc n cols, get_locs ns cols with
      | Some i, Some is' => Some (i :: is')
      | _, _ => None
      end
  end.

(** [df[[names]]]: the named columns, in the order asked for. *)
Definition select (names : list string) (df : DataFrame) : option DataFrame :=
  match get_locs names (columns df) with
  | Some idx => Some (mkframe names (map (fun row => map (fun i => nth i row NaN) idx) (values df)))
  | None => None
  end.

Definition date_key (i : nat) (row : list cell) : option date :=
  match nth i row NaN with
  | Timestamp d => Some d
  | _ => None
  end.

(** The order of [sort_values(by, ascending=False)] on a column of dates:
    later dates first, rows without a date last. *)
Definition later_first (i : nat) (a b : list cell) : bool :=
  match date_key i a, date_key i b with
  | Some x, Some y => PyDate.leb y x
  | Some _, None => true
  | None, Some _ => false
  | None, None => true
  end.

(** [df.sort_values(by, ascending=False)] *)
Definition sort_values_descending (by_ : string) (df : DataFrame) : option DataFrame :=
  match get_loc by_ (columns df) with
  | Some i => Some (mkframe (columns df) (stable_sort (later_first i) (values df)))
  | None => None
  end.

(** The three weight metrics: the latest weight, the average, and the
    change, which is "N/A" ([None]) for a single entry.  [None] as a whole is
    the IndexError of [iloc] on an empty frame. *)
Record weight_stats : Type := mk_weight_stats {
  latest_weight : Q;
  average : pyfloat;
  change : option Q
}.

Definition summary_stats (Weight : list Q) : option weight_stats :=
  match iloc_last Weight, iloc_first Weight with
  | Some latest, Some first =>
      Some (mk_weight_stats latest (mean (map Some Weight))
              (if (1 <? List.length Weight)%nat then Some (latest - first) else None))
  | _, _ => None
  end.

End PandasOps.

Module HealthTrackerDisplay.
Import PyDate Pandas PandasOps HealthTracker.

(** Latest Weight, Average and Change of the weight page. *)
Definition weight_summary (data : list weight_record) : option weight_stats :=
  summary_stats (map Weight data).

(** data[["Date", "Weight", "Body Fat %", "Notes"]].sort_values("Date", ascending=False) *)
Definition weight_log (data : list weight_record) : option DataFrame :=
  match select weight_table_columns (weight_frame data) with
  | Some t => sort_values_descending "Date" t
  | None => None
  end.

(** Avg Systolic and Avg Diastolic of the blood-pressure page. *)
Definition bp_summary (data_bp : list bp_record) : pyfloat * pyfloat :=
  (mean (map (fun r => Some (inject_Z (Systolic r))) data_bp),
   mean (map (fun r => Some (inject_Z (Diastolic r))) data_bp)).

(** data_bp[["Date", "Systolic", "Diastolic", "Notes"]].sort_values("Date", ascending=False) *)
Definition bp_log (data_bp : list bp_record) : option DataFrame :=
  match select bp_table_columns (bp_frame data_bp) with
  | Some t => sort_values_descending "Date" t
  | None => None
  end.

End HealthTrackerDisplay.

Module WeightTrackerDisplay.
Import PyDate Pandas PandasOps WeightTracker.

Definition summary (data : list entry) : option weight_stats :=
  summary_stats (map Weight data).

(** The table of the prototype, taken from the frame that has the Trend. *)
Definition log_table (data : list entry) : option DataFrame :=
  match select table_columns (frame data) with
  | Some t => sort_values_descending "Date" t
  | None => None
  end.

End WeightTrackerDisplay.

(* ================================================================= *)
(** ** Vocabulary of the properties *)

(** Rowids grow along the table. *)
Definition ids_increasing {R : Type} `{Sqlite.Row R} (l : list R) : Prop :=
  StronglySorted (fun a b => (Sqlite.rowid a < Sqlite.rowid b)%Z) l.

(** A store state: both tables, where they exist, hold their rows in rowid
    order, as a table keyed by an integer primary key does. *)
Definition well_formed (file : Sqlite.database) : Prop :=
  ids_increasing (Sqlite.stored_weights file) /\ ids_increasing (Sqlite.stored_bp file).

(** The text [s] is the ISO form of the date [d]. *)
Definition dated (s : string) (d : PyDate.date) : Prop :=
  PyDate.date_ok d = true /\ s = PyDate.isoformat d.

(** Ascending by date, and by rowid among rows of one date: of two rows, the
    earlier in the list has the date text that is not larger, hence (the
    texts being ISO dates) the date that is not later; and with the same
    date it has the smaller rowid. *)
Definition by_date_then_id {R : Type} `{Sqlite.Row R} (l : list R) : Prop :=
  forall (i j : nat) (a b : R),
    (i < j)%nat -> nth_error l i = Some a -> nth_error l j = Some b ->
    Sqlite.text_leb (Sqlite.date_text a) (Sqlite.date_text b) = true /\
    (forall da db, dated (Sqlite.date_text a) da -> dated (Sqlite.date_text b) db ->
                   PyDate.leb da db = true) /\
    (Sqlite.date_text a = Sqlite.date_text b -> (Sqlite.rowid a < Sqlite.rowid b)%Z).

Definition ascending (ds : list PyDate.date) : Prop :=
  StronglySorted (fun a b => PyDate.leb a b = true) ds.

Definition descending (ds : list PyDate.date) : Prop :=
  StronglySorted (fun a b => PyDate.leb b a = true) ds.

(** [before] is the order of the input; [keyed leb before a b] says that
    [a] may stand before [b] in the output of a sort by [leb]: its key is not
    larger, and with equal keys it stood before [b] in the input. *)
Definition keyed {A : Type} (leb : A -> A -> bool) (before : A -> A -> Prop) (a b : A) : Prop :=
  leb a b = true /\ (leb b a = true -> before a b).

(** Every row carries the ISO text of a date, as the rows the forms write do. *)
Definition dated_rows {R : Type} `{Sqlite.Row R} (l : list R) : Prop :=
  Forall (fun r => exists d, dated (Sqlite.date_text r) d) l.

(** *** Reading an export *)

Fixpoint index_of (name : string) (cols : list string) : option nat :=
  match cols with
  | [] => None
  | c :: cs => if String.eqb c name then Some O else option_map S (index_of name cs)
  end.

(** The cells under one column label of an export. *)
Definition csv_column (name : string) (c : Pandas.csv_file) : list Pandas.cell :=
  match index_of name (Pandas.header c) with
  | Some i => map (fun line => nth i line Pandas.NaN) (Pandas.lines c)
  | None => []
  end.

Fixpoint timestamps (cs : list Pandas.cell) : list PyDate.date :=
  match cs with
  | [] => []
  | Pandas.Timestamp d :: cs' => d :: timestamps cs'
  | _ :: cs' => timestamps cs'
  end.

(** The dates of the rows of an export, top to bottom. *)
Definition csv_dates (c : Pandas.csv_file) : list PyDate.date :=
  timestamps (csv_column "Date" c).

(** *** The forms of the health tracker *)

Module HealthTrackerSpec.
Import PyDate Streamlit Pandas Sqlite HealthTracker.

(** The rowid the next weight entry gets. *)
Definition next_weight_id (file : database) : Z :=
  match weights file with
  | Some t => next_rowid t
  | None => 1%Z
  end.

Definition next_bp_id (file : database) : Z :=
  match blood_pressure file with
  | Some t => next_rowid t
  | None => 1%Z
  end.

(** The row an accepted weight form stores. *)
Definition weight_row_of_form (today : date) (f : weight_form) (id : Z) : weight_row :=
  mk_weight_row id
    (isoformat (date_input today (wf_date f)))
    (number_input 0%Q (wf_weight f))
    (if Qltb 0 (number_input 0%Q (wf_bodyfat f))
     then Some (number_input 0%Q (wf_bodyfat f)) else None)
    (Some (text_area (wf_notes f))).

Definition bp_row_of_form (today : date) (f : bp_form) (id : Z) : bp_row :=
  mk_bp_row id
    (isoformat (date_input today (bf_date f)))
    (number_input 0%Z (bf_systolic f))
    (number_input 0%Z (bf_diastolic f))
    (Some (text_area (bf_notes f))).

Definition weight_accepted (f : weight_form) : bool :=
  wf_add_button f && Qltb 0 (number_input 0%Q (wf_weight f)).

Definition bp_accepted (f : bp_form) : bool :=
  bf_add_bp_button f && (0 <? number_input 0%Z (bf_systolic f))%Z
  && (0 <? number_input 0%Z (bf_diastolic f))%Z.

(** The record read from a row: the row's fields, its date parsed. *)
Definition read_as_weight (r : weight_row) (x : weight_record) : Prop :=
  dated (w_date r) (Date x).

Definition read_as_bp (r : bp_row) (x : bp_record) : Prop :=
  dated (b_date r) (bp_Date x).

End HealthTrackerSpec.

(** *** The form of the prototype *)

Module WeightTrackerSpec.
Import PyDate Streamlit Pandas WeightTracker.

Definition accepted (f : form) : bool :=
  f_add_button f && Qltb 0 (number_input 0%Q (f_weight f)).

(** The row an accepted form appends to the log. *)
Definition entry_of_form (today : date) (f : form) : entry :=
  mk_entry
    (date_input today (f_date f))
    (number_input 0%Q (f_weight f))
    (if Qltb 0 (number_input 0%Q (f_bodyfat f))
     then Some (number_input 0%Q (f_bodyfat f)) else None)
    (Some (text_area (f_notes f))).

End WeightTrackerSpec.

(** *** Window sums *)

Module RollingSpec.
Import Pandas.

Definition sumQ (l : list Q) : Q := fold_right Qplus 0 l.

(** The sum of [len] values from position [lo] on. *)
Definition wsum (ws : list Q) (lo len : nat) : Q :=
  sumQ (map (fun j => nth j ws 0) (seq lo len)).

(** The running state when position [i] has been processed. *)
Definition at_position (w : nat) (ws : list Q) (i : nat) (st : mean_state) : Prop :=
  nobs st = Nat.min (i + 1) w /\
  sum_x st == wsum ws (i + 1 - Nat.min (i + 1) w) (Nat.min (i + 1) w).

End RollingSpec.

(* ================================================================= *)
(** ** Sample inputs *)

Definition sample_today : PyDate.date := PyDate.mkdate 2024 3 7.

Definition sample_weight_form : HealthTracker.weight_form :=
  HealthTracker.mk_weight_form None (Some 72.5) (Some 18) None true.

Definition sample_form : WeightTracker.form :=
  WeightTracker.mk_form None (Some 72.5) None (Some "after run") true.

Definition zero_bodyfat_weight_form : HealthTracker.weight_form :=
  HealthTracker.mk_weight_form None (Some 72.5) (Some 0) None true.

Definition no_bodyfat_form : WeightTracker.form :=
  WeightTracker.mk_form None (Some 72.5) None None true.

Definition sample_bp_form : HealthTracker.bp_form :=
  HealthTracker.mk_bp_form None (Some 118%Z) (Some 76%Z) None true.

(** A store after one weight entry and one blood-pressure reading. *)
Definition sample_file : Sqlite.database :=
  fst (HealthTracker.run sample_today (HealthTracker.Blood_Pressure_Tracker sample_bp_form)
         (fst (HealthTracker.run sample_today (HealthTracker.Weight_Tracker sample_weight_form)
                 Sqlite.fresh))).

Definition sample_session : WeightTracker.session_state :=
  fst (WeightTracker.run sample_today no_bodyfat_form None).

(** A store with two readings of one day entered after a later day's. *)
Definition ties_world : world :=
  mk_world
    (Sqlite.mk_database
       (Some (Sqlite.mk_table
                [Sqlite.mk_weight_row 1 "2024-01-02" 71 None (Some "");
                 Sqlite.mk_weight_row 2 "2024-01-01" 70 (Some 15) (Some "am");
                 Sqlite.mk_weight_row 3 "2024-01-01" 70.5 None (Some "pm")] 3))
       (Some (Sqlite.mk_table
                [Sqlite.mk_bp_row 1 "2024-01-02" 120 80 (Some "");
                 Sqlite.mk_bp_row 2 "2024-01-01" 118 79 (Some "")] 2)))
    (Some [WeightTracker.mk_entry (PyDate.mkdate 2024 1 2) 71 None (Some "");
           WeightTracker.mk_entry (PyDate.mkdate 2024 1 1) 70 None (Some "")]).

Definition sample_weight_rows : list Sqlite.weight_row :=
  [Sqlite.mk_weight_row 1 "2024-01-01" 65 None (Some "");
   Sqlite.mk_weight_row 2 "2024-01-02" 90 (Some 22) (Some "");
   Sqlite.mk_weight_row 3 "2024-01-03" 80 (Some 21) (Some "")].

Definition sample_weight_data : list HealthTracker.weight_record :=
  [HealthTracker.mk_weight_record 1 (PyDate.mkdate 2024 1 1) 65 None (Some "");
   HealthTracker.mk_weight_record 2 (PyDate.mkdate 2024 1 2) 90 (Some 22) (Some "");
   HealthTracker.mk_weight_record 3 (PyDate.mkdate 2024 1 3) 80 (Some 21) (Some "")].

Definition sample_bp_rows : list Sqlite.bp_row :=
  [Sqlite.mk_bp_row 1 "2024-01-01" 118 76 (Some "");
   Sqlite.mk_bp_row 2 "2024-01-02" 131 58 (Some "post-workout")]%Z.

Definition sample_bp_data : list HealthTracker.bp_record :=
  [HealthTracker.mk_bp_record 1 (PyDate.mkdate 2024 1 1) 118 76 (Some "");
   HealthTracker.mk_bp_record 2 (PyDate.mkdate 2024 1 2) 131 58 (Some "post-workout")]%Z.

Definition no_bodyfat_rows : list Sqlite.weight_row :=
  [Sqlite.mk_weight_row 1 "2024-01-01" 70 None (Some "");
   Sqlite.mk_weight_row 2 "2024-01-02" 71 None (Some "")].

Definition no_bodyfat_data : list HealthTracker.weight_record :=
  [HealthTracker.mk_weight_record 1 (PyDate.mkdate 2024 1 1) 70 None (Some "");
   HealthTracker.mk_weight_record 2 (PyDate.mkdate 2024 1 2) 71 None (Some "")].

Definition four_entries : list WeightTracker.entry :=
  [WeightTracker.mk_entry (PyDate.mkdate 2024 1 1) 70 None (Some "");
   WeightTracker.mk_entry (PyDate.mkdate 2024 1 2) 71 None (Some "");
   WeightTracker.mk_entry (PyDate.mkdate 2024 1 3) 72 None (Some "");
   WeightTracker.mk_entry (PyDate.mkdate 2024 1 4) 73 None (Some "")].

(** A store with three weight entries of three days. *)
Definition export_file : Sqlite.database :=
  Sqlite.mk_database (Some (Sqlite.mk_table sample_weight_rows 3)) (Some (Sqlite.mk_table [] 0)).

Definition idle_weight_form : HealthTracker.weight_form :=
  HealthTracker.mk_weight_form None None None None false.

(** A store with weight entries and blood-pressure readings. *)
Definition full_file : Sqlite.database :=
  Sqlite.mk_database (Some (Sqlite.mk_table sample_weight_rows 3))
                     (Some (Sqlite.mk_table sample_bp_rows 2)).

(* ================================================================= *)
(** ** The model at sample inputs *)

Example isoformat_example :
  PyDate.isoformat (PyDate.mkdate 2024 3 7) = "2024-03-07".
Proof. reflexivity. Qed.

Example fromisoformat_example :
  PyDate.fromisoformat "2024-03-07" = Some (PyDate.mkdate 2024 3 7).
Proof. reflexivity. Qed.

Example rolling_mean_example :
  map (option_map Qred) (Pandas.rolling_mean 3 [Some 70; Some 71; Some 72; Some 73])
  = [None; None; Some 71; Some 72].
Proof. reflexivity. Qed.

Example rolling_mean_nan_example :
  map (option_map Qred) (Pandas.rolling_mean 2 [Some 1; None; Some 3; Some 5])
  = [None; None; None; Some 4].
Proof. reflexivity. Qed.

(* ================================================================= *)
(** ** Facts about dates and their ISO text *)

Module PyDateFacts.
Import PyDate.
Local Open Scope Z_scope.

Lemma N_of_digit (n : Z) : N_of_ascii (digit n) = Z.to_N (48 + n mod 10).
Proof.
  unfold digit. apply N_ascii_embedding.
  pose proof (Z.mod_pos_bound n 10 ltac:(lia)). lia.
Qed.

Lemma digit_compare (a b : Z) :
  Ascii.compare (digit a) (digit b) = (a mod 10 ?= b mod 10).
Proof.
  unfold Ascii.compare. rewrite !N_of_digit.
  pose proof (Z.mod_pos_bound a 10 ltac:(lia)).
  pose proof (Z.mod_pos_bound b 10 ltac:(lia)).
  rewrite Z2N.inj_compare by lia.
  apply Z.add_compare_mono_l.
Qed.

Lemma digit_value_digit (n : Z) : digit_value (digit n) = Some (n mod 10).
Proof.
  unfold digit_value. rewrite N_of_digit.
  pose proof (Z.mod_pos_bound n 10 ltac:(lia)).
  rewrite Z2N.id by lia.
  replace (48 <=? 48 + n mod 10) with true by (symmetry; apply Z.leb_le; lia).
  replace (48 + n mod 10 <=? 57) with true by (symmetry; apply Z.leb_le; lia).
  cbn [andb]. f_equal. lia.
Qed.

Lemma pow10_pos (w : nat) : 0 < 10 ^ Z.of_nat w.
Proof. apply Z.pow_pos_nonneg; lia. Qed.

Lemma mod_pow10_succ (n : Z) (w : nat) :
  n mod 10 ^ Z.of_nat (S w)
  = n mod 10 ^ Z.of_nat w + 10 ^ Z.of_nat w * ((n / 10 ^ Z.of_nat w) mod 10).
Proof.
  pose proof (pow10_pos w).
  rewrite Nat2Z.inj_succ, Z.pow_succ_r by lia.
  rewrite (Z.mul_comm 10).
  apply Z.rem_mul_r; lia.
Qed.

Lemma lex_compare (P dn dm rn rm : Z) (X : comparison) :
  0 <= rn < P -> 0 <= rm < P ->
  match dn ?= dm with
  | Eq => match rn ?= rm with Eq => X | c => c end
  | c => c
  end
  = match rn + P * dn ?= rm + P * dm with Eq => X | c => c end.
Proof.
  intros Hn Hm.
  destruct (Z.compare_spec dn dm) as [E | E | E].
  - subst dm. destruct (Z.compare_spec rn rm) as [E | E | E].
    + subst rm. now rewrite Z.compare_refl.
    + replace (rn + P * dn ?= rm + P * dn) with Lt; [easy | symmetry; apply Z.compare_lt_iff; lia].
    + replace (rn + P * dn ?= rm + P * dn) with Gt; [easy | symmetry; apply Z.compare_gt_iff; lia].
  - replace (rn + P * dn ?= rm + P * dm) with Lt; [easy | symmetry; apply Z.compare_lt_iff; nia].
  - replace (rn + P * dn ?= rm + P * dm) with Gt; [easy | symmetry; apply Z.compare_gt_iff; nia].
Qed.

(** Zero-padded decimals of one width compare as the numbers do. *)
Lemma zfill_compare (w : nat) : forall (n m : Z) (s t : string),
  String.compare (zfill w n ++ s)%string (zfill w m ++ t)%string
  = match n mod 10 ^ Z.of_nat w ?= m mod 10 ^ Z.of_nat w with
    | Eq => String.compare s t
    | c => c
    end.
Proof.
  induction w as [| w IH]; intros n m s t.
  - simpl. now rewrite !Z.mod_1_r.
  - cbn [zfill String.append String.compare].
    rewrite digit_compare, IH, !mod_pow10_succ.
    pose proof (pow10_pos w).
    apply lex_compare; apply Z.mod_pos_bound; lia.
Qed.

Lemma read_digits_zfill (w : nat) : forall (acc n : Z) (rest : string),
  read_digits w acc (zfill w n ++ rest)%string
  = Some (acc * 10 ^ Z.of_nat w + n mod 10 ^ Z.of_nat w, rest).
Proof.
  induction w as [| w IH]; intros acc n rest.
  - simpl. rewrite Z.mod_1_r. do 2 f_equal. lia.
  - cbn [zfill String.append read_digits].
    rewrite digit_value_digit, IH, mod_pow10_succ.
    rewrite Nat2Z.inj_succ, Z.pow_succ_r by lia.
    do 2 f_equal. ring.
Qed.

Lemma append_empty (s : string) : (s ++ "")%string = s.
Proof. induction s; simpl; congruence. Qed.

Lemma date_ok_bounds (d : date) :
  date_ok d = true ->
  1 <= year d <= 9999 /\ 1 <= month d <= 12 /\ 1 <= day d <= 31.
Proof.
  unfold date_ok. rewrite !andb_true_iff, !Z.leb_le. tauto.
Qed.

(** Reading an ISO text back gives the date it was printed from. *)
Lemma fromisoformat_isoformat (d : date) :
  date_ok d = true -> fromisoformat (isoformat d) = Some d.
Proof.
  intros Hok. pose proof (date_ok_bounds d Hok) as (Hy & Hm & Hd).
  unfold fromisoformat, isoformat.
  rewrite read_digits_zfill. cbn [String.append expect_dash].
  rewrite read_digits_zfill. cbn [String.append expect_dash].
  rewrite <- (append_empty (zfill 2 (day d))), read_digits_zfill.
  change (10 ^ Z.of_nat 4) with 10000. change (10 ^ Z.of_nat 2) with 100.
  rewrite !Z.mod_small by lia. cbn [Z.mul Z.add].
  destruct d as [y m dd]; cbn [year month day] in *. now rewrite Hok.
Qed.

(** The byte order of ISO texts is the order of the dates. *)
Lemma isoformat_compare (a b : date) :
  date_ok a = true -> date_ok b = true ->
  String.compare (isoformat a) (isoformat b) = PyDate.compare a b.
Proof.
  intros Ha Hb.
  pose proof (date_ok_bounds a Ha) as (Hya & Hma & Hda).
  pose proof (date_ok_bounds b Hb) as (Hyb & Hmb & Hdb).
  unfold isoformat, PyDate.compare.
  rewrite zfill_compare. cbn [String.append String.compare].
  change (Ascii.compare "-" "-") with Eq. cbv iota.
  rewrite zfill_compare. cbn [String.append String.compare].
  change (Ascii.compare "-" "-") with Eq. cbv iota.
  rewrite <- (append_empty (zfill 2 (day a))), <- (append_empty (zfill 2 (day b))).
  rewrite zfill_compare. cbn [String.compare].
  change (10 ^ Z.of_nat 4) with 10000. change (10 ^ Z.of_nat 2) with 100.
  rewrite !Z.mod_small by lia.
  destruct (year a ?= year b); try reflexivity.
  destruct (month a ?= month b); try reflexivity.
  destruct (day a ?= day b); reflexivity.
Qed.

Lemma compare_eq (a b : date) : PyDate.compare a b = Eq -> a = b.
Proof.
  unfold PyDate.compare. destruct a as [y m d], b as [y' m' d']; cbn [year month day].
  destruct (Z.compare_spec y y'); try discriminate.
  destruct (Z.compare_spec m m'); try discriminate.
  destruct (Z.compare_spec d d'); try discriminate.
  intros _. congruence.
Qed.

Lemma leb_isoformat (a b : date) :
  date_ok a = true -> date_ok b = true ->
  String.leb (isoformat a) (isoformat b) = PyDate.leb a b.
Proof.
  intros Ha Hb. unfold String.leb, PyDate.leb. now rewrite isoformat_compare.
Qed.

Lemma leb_total (a b : date) : PyDate.leb a b = true \/ PyDate.leb b a = true.
Proof.
  unfold PyDate.leb, PyDate.compare.
  destruct (Z.compare_spec (year a) (year b)), (Z.compare_spec (year b) (year a));
    try lia; auto;
  destruct (Z.compare_spec (month a) (month b)), (Z.compare_spec (month b) (month a));
    try lia; auto;
  destruct (Z.compare_spec (day a) (day b)), (Z.compare_spec (day b) (day a));
    try lia; auto.
Qed.

Lemma leb_trans (a b c : date) :
  PyDate.leb a b = true -> PyDate.leb b c = true -> PyDate.leb a c = true.
Proof.
  unfold PyDate.leb, PyDate.compare.
  destruct (Z.compare_spec (year a) (year b)); try discriminate;
  destruct (Z.compare_spec (year b) (year c)); try discriminate;
  destruct (Z.compare_spec (year a) (year c)); try lia; auto;
  destruct (Z.compare_spec (month a) (month b)); try discriminate;
  destruct (Z.compare_spec (month b) (month c)); try discriminate;
  destruct (Z.compare_spec (month a) (month c)); try lia; auto;
  destruct (Z.compare_spec (day a) (day b)); try discriminate;
  destruct (Z.compare_spec (day b) (day c)); try discriminate;
  destruct (Z.compare_spec (day a) (day c)); try lia; auto.
Qed.

End PyDateFacts.

(* ================================================================= *)
(** ** Facts about the stable sort *)

Section StableSortFacts.
Context {A : Type} (leb : A -> A -> bool).
Hypothesis leb_total : forall a b, leb a b = true \/ leb b a = true.
Hypothesis leb_trans : forall a b c, leb a b = true -> leb b c = true -> leb a c = true.

Lemma insert_sorted_perm (x : A) (l : list A) :
  Permutation (x :: l) (insert_sorted leb x l).
Proof.
  induction l as [| y l IH]; simpl.
  - apply Permutation_refl.
  - destruct (leb x y).
    + apply Permutation_refl.
    + eapply perm_trans; [apply perm_swap | apply perm_skip, IH].
Qed.

Lemma stable_sort_perm (l : list A) : Permutation l (stable_sort leb l).
Proof.
  induction l as [| x l IH]; simpl.
  - apply perm_nil.
  - eapply perm_trans; [apply perm_skip, IH | apply insert_sorted_perm].
Qed.

Lemma stable_sort_length (l : list A) : List.length (stable_sort leb l) = List.length l.
Proof. symmetry. apply Permutation_length, stable_sort_perm. Qed.

Lemma Forall_insert_sorted (P : A -> Prop) (x : A) (l : list A) :
  P x -> Forall P l -> Forall P (insert_sorted leb x l).
Proof.
  intros Hx Hl.
  apply (Permutation_Forall (insert_sorted_perm x l)). now constructor.
Qed.

Lemma Forall_stable_sort (P : A -> Prop) (l : list A) :
  Forall P l -> Forall P (stable_sort leb l).
Proof. apply Permutation_Forall, stable_sort_perm. Qed.

(** The order in which the input holds its elements. *)
Variable before : A -> A -> Prop.

Lemma insert_sorted_keyed (x : A) (s : list A) :
  StronglySorted (keyed leb before) s -> Forall (before x) s ->
  StronglySorted (keyed leb before) (insert_sorted leb x s).
Proof.
  induction 1 as [| y s Hs IH Hy]; intros Hx; simpl.
  - repeat constructor.
  - inversion Hx as [| ? ? Hxy Hxs]; subst.
    destruct (leb x y) eqn:E.
    + constructor; [now constructor |].
      constructor; [split; auto |].
      rewrite Forall_forall in *. intros z Hz. split.
      * apply (leb_trans x y z E). now apply Hy.
      * intros _. now apply Hxs.
    + constructor; [now apply IH |].
      apply Forall_insert_sorted; [| exact Hy].
      split.
      * destruct (leb_total x y); congruence.
      * congruence.
Qed.

Lemma stable_sort_keyed (l : list A) :
  StronglySorted before l -> StronglySorted (keyed leb before) (stable_sort leb l).
Proof.
  induction 1 as [| x l Hl IH Hx]; simpl.
  - constructor.
  - apply insert_sorted_keyed; [exact IH |].
    now apply Forall_stable_sort.
Qed.

End StableSortFacts.

Lemma StronglySorted_nth_error {A : Type} (R : A -> A -> Prop) (l : list A) :
  StronglySorted R l ->
  forall (i j : nat) (a b : A),
    (i < j)%nat -> nth_error l i = Some a -> nth_error l j = Some b -> R a b.
Proof.
  induction 1 as [| x l Hl IH Hx]; intros i j a b Hij Ha Hb.
  - destruct i; discriminate.
  - destruct j as [| j]; [lia |]. simpl in Hb.
    destruct i as [| i]; simpl in Ha.
    + injection Ha as <-. rewrite Forall_forall in Hx.
      apply Hx. eapply nth_error_In; eauto.
    + apply (IH i j); auto. lia.
Qed.

Lemma StronglySorted_snoc {A : Type} (R : A -> A -> Prop) (l : list A) (x : A) :
  StronglySorted R l -> Forall (fun a => R a x) l -> StronglySorted R (l ++ [x]).
Proof.
  induction 1 as [| y l Hl IH Hy]; intros Hx; simpl.
  - repeat constructor.
  - inversion Hx; subst. constructor; [now apply IH |].
    apply Forall_app. split; [exact Hy | now repeat constructor].
Qed.

Lemma StronglySorted_weaken {A : Type} (R S : A -> A -> Prop) (l : list A) :
  (forall a b, R a b -> S a b) -> StronglySorted R l -> StronglySorted S l.
Proof.
  intros HRS. induction 1 as [| x l Hl IH Hx]; constructor; auto.
  eapply Forall_impl; [| exact Hx]. auto.
Qed.

Lemma StronglySorted_map {A B : Type} (f : A -> B) (R : B -> B -> Prop) (l : list A) :
  StronglySorted (fun a b => R (f a) (f b)) l -> StronglySorted R (map f l).
Proof.
  induction 1 as [| x l Hl IH Hx]; simpl; constructor; auto.
  rewrite Forall_map. exact Hx.
Qed.

(** The byte order of texts is transitive. *)
Lemma string_leb_trans (a b c : string) :
  String.leb a b = true -> String.leb b c = true -> String.leb a c = true.
Proof.
  unfold String.leb. revert b c.
  induction a as [| x a IH]; intros [| y b] [| z c]; simpl; try easy.
  unfold Ascii.compare.
  destruct (N.compare_spec (N_of_ascii x) (N_of_ascii y)) as [E1 | E1 | E1];
    destruct (N.compare_spec (N_of_ascii y) (N_of_ascii z)) as [E2 | E2 | E2];
    destruct (N.compare_spec (N_of_ascii x) (N_of_ascii z)) as [E3 | E3 | E3];
    try easy; try lia.
  apply IH.
Qed.

(* ================================================================= *)
(** ** Facts about the store *)

Module SqliteFacts.
Import Sqlite.
Local Open Scope Z_scope.

Lemma string_leb_refl (s : string) : String.leb s s = true.
Proof.
  unfold String.leb. pose proof (String.compare_antisym s s) as H.
  destruct (String.compare s s); simpl in H; congruence.
Qed.

Lemma stored_weights_init_db (file : database) :
  stored_weights (init_db file) = stored_weights file.
Proof. destruct file as [[t |] b]; reflexivity. Qed.

Lemma stored_bp_init_db (file : database) :
  stored_bp (init_db file) = stored_bp file.
Proof. destruct file as [w [t |]]; reflexivity. Qed.

Lemma init_db_idempotent (file : database) : init_db (init_db file) = init_db file.
Proof. destruct file as [[t |] [u |]]; reflexivity. Qed.

Lemma load_weights_init_db (file : database) :
  load_weights (init_db file) = Ok (stable_sort date_leb (stored_weights file)).
Proof. destruct file as [[t |] b]; reflexivity. Qed.

Lemma load_bp_init_db (file : database) :
  load_bp (init_db file) = Ok (stable_sort date_leb (stored_bp file)).
Proof. destruct file as [w [t |]]; reflexivity. Qed.

Lemma date_leb_total {R : Type} `{Row R} (a b : R) :
  date_leb a b = true \/ date_leb b a = true.
Proof. apply String.leb_total. Qed.

Lemma date_leb_trans {R : Type} `{Row R} (a b c : R) :
  date_leb a b = true -> date_leb b c = true -> date_leb a c = true.
Proof. apply string_leb_trans. Qed.

(** Sorting rows that stand in rowid order yields them by date, then id. *)
Lemma stable_sort_by_date_then_id {R : Type} `{Row R} (l : list R) :
  ids_increasing l -> by_date_then_id (stable_sort date_leb l).
Proof.
  intros Hids i j a b Hij Ha Hb.
  pose proof (stable_sort_keyed date_leb date_leb_total date_leb_trans _ l Hids) as Hs.
  destruct (StronglySorted_nth_error _ _ Hs i j a b Hij Ha Hb) as [Hle Htie].
  split; [exact Hle | split].
  - intros da db [Hoa Ea] [Hob Eb].
    unfold date_leb, text_leb in Hle. rewrite Ea, Eb in Hle.
    now rewrite PyDateFacts.leb_isoformat in Hle.
  - intros E. apply Htie. unfold date_leb, text_leb. rewrite E.
    apply string_leb_refl.
Qed.

Lemma rowid_le_max {R : Type} `{Row R} (l : list R) :
  Forall (fun r => rowid r <= max_rowid l) l.
Proof.
  induction l as [| x l IH]; constructor; simpl.
  - lia.
  - eapply Forall_impl; [| exact IH]. simpl. intros; lia.
Qed.

Lemma insert_row_ids_increasing {R : Type} `{Row R} (mk : Z -> R) (t : table R) :
  (forall id, rowid (mk id) = id) ->
  ids_increasing (rows t) -> ids_increasing (rows (insert_row mk t)).
Proof.
  intros Hmk Hids. unfold insert_row; simpl.
  apply StronglySorted_snoc; [exact Hids |].
  eapply Forall_impl; [| apply rowid_le_max].
  simpl. intros r Hr. rewrite Hmk. unfold next_rowid. lia.
Qed.

End SqliteFacts.

Lemma stable_sort_sorted {A : Type} (leb : A -> A -> bool) (l : list A) :
  (forall a b, leb a b = true \/ leb b a = true) ->
  (forall a b c, leb a b = true -> leb b c = true -> leb a c = true) ->
  StronglySorted (fun a b => leb a b = true) (stable_sort leb l).
Proof.
  intros Htotal Htrans.
  apply (StronglySorted_weaken (keyed leb (fun _ _ => True))).
  - now intros a b [H _].
  - apply stable_sort_keyed; auto.
    induction l; constructor; auto. now apply Forall_forall.
Qed.

Lemma sort_values_Date_ascending (log : WeightTracker.weight_log) :
  ascending (map WeightTracker.Date (WeightTracker.sort_values_Date log)).
Proof.
  apply StronglySorted_map.
  apply (stable_sort_sorted (fun a b => PyDate.leb (WeightTracker.Date a) (WeightTracker.Date b))).
  - intros a b. apply PyDateFacts.leb_total.
  - intros a b c. apply PyDateFacts.leb_trans.
Qed.

(* ================================================================= *)
(** ** Ordered retrieval *)



Example ties_world_listing :
  option_map (map Sqlite.w_id)
    (match health_tracker_weights ties_world with Ok l => Some l | Raise _ => None end)
  = Some [2; 3; 1]%Z.
Proof. reflexivity. Qed.

(* ================================================================= *)
(** ** Facts about the forms *)

Lemma Qltb_lt (x y : Q) : Qltb x y = true <-> x < y.
Proof.
  unfold Qltb. rewrite negb_true_iff, <- not_true_iff_false, Qle_bool_iff.
  split; [apply Qnot_le_lt | apply Qlt_not_le].
Qed.

Lemma Qltb_ge (x y : Q) : Qltb x y = false <-> y <= x.
Proof.
  unfold Qltb. now rewrite negb_false_iff, Qle_bool_iff.
Qed.

Module HealthTrackerFacts.
Import PyDate Streamlit Pandas Sqlite HealthTracker HealthTrackerSpec.

Lemma run_weight_accepted (today : date) (f : weight_form) (file : database) :
  weight_accepted f = true ->
  stored_weights (fst (run today (Weight_Tracker f) file))
  = stored_weights file ++ [weight_row_of_form today f (next_weight_id file)] /\
  stored_bp (fst (run today (Weight_Tracker f) file)) = stored_bp file /\
  page_alert (snd (run today (Weight_Tracker f) file)) = Some success.
Proof.
  unfold weight_accepted. intros H.
  unfold run, weight_section, submit_weight. rewrite H.
  destruct file as [[t |] [u |]]; repeat split; reflexivity.
Qed.

Lemma run_weight_rejected (today : date) (f : weight_form) (file : database) :
  weight_accepted f = false ->
  fst (run today (Weight_Tracker f) file) = init_db file /\
  page_alert (snd (run today (Weight_Tracker f) file))
  = if wf_add_button f then Some (warning invalid_weight) else None.
Proof.
  unfold weight_accepted. intros H.
  unfold run, weight_section, submit_weight. rewrite H.
  destruct (wf_add_button f); split; reflexivity.
Qed.

Lemma run_bp_accepted (today : date) (f : bp_form) (file : database) :
  bp_accepted f = true ->
  stored_bp (fst (run today (Blood_Pressure_Tracker f) file))
  = stored_bp file ++ [bp_row_of_form today f (next_bp_id file)] /\
  stored_weights (fst (run today (Blood_Pressure_Tracker f) file)) = stored_weights file /\
  page_alert (snd (run today (Blood_Pressure_Tracker f) file)) = Some success.
Proof.
  unfold bp_accepted. intros H.
  unfold run, bp_section, submit_bp. rewrite H.
  destruct file as [[t |] [u |]]; repeat split; reflexivity.
Qed.

Lemma run_bp_rejected (today : date) (f : bp_form) (file : database) :
  bp_accepted f = false ->
  fst (run today (Blood_Pressure_Tracker f) file) = init_db file /\
  page_alert (snd (run today (Blood_Pressure_Tracker f) file))
  = if bf_add_bp_button f then Some (warning invalid_bp) else None.
Proof.
  unfold bp_accepted. intros H.
  unfold run, bp_section, submit_bp. rewrite H.
  destruct (bf_add_bp_button f); split; reflexivity.
Qed.

Lemma count_weights_length (file : database) :
  count_weights file = List.length (stored_weights file).
Proof. destruct file as [[t |] b]; reflexivity. Qed.

Lemma count_bp_length (file : database) :
  count_bp file = List.length (stored_bp file).
Proof. destruct file as [w [t |]]; reflexivity. Qed.

End HealthTrackerFacts.

Module WeightTrackerFacts.
Import PyDate Streamlit Pandas WeightTracker WeightTrackerSpec.

Lemma run_accepted (today : date) (f : form) (ss : session_state) :
  accepted f = true ->
  fst (run today f ss) = Some (setup ss ++ [entry_of_form today f]) /\
  fst (snd (run today f ss)) = Some success.
Proof.
  unfold accepted. intros H. unfold run, submit. rewrite H. split; reflexivity.
Qed.

Lemma run_rejected (today : date) (f : form) (ss : session_state) :
  accepted f = false ->
  fst (run today f ss) = Some (setup ss) /\
  fst (snd (run today f ss))
  = if f_add_button f then Some (warning invalid_weight) else None.
Proof.
  unfold accepted. intros H. unfold run, submit. rewrite H.
  destruct (f_add_button f); split; reflexivity.
Qed.

Lemma log_invariant (P : entry -> Prop) :
  (forall today f, P (entry_of_form today f)) ->
  forall ss, produced ss -> Forall P (setup ss).
Proof.
  intros HP ss Hss. induction Hss as [| today f ss Hss IH].
  - constructor.
  - destruct (accepted f) eqn:E.
    + destruct (run_accepted today f ss E) as [-> _]. simpl.
      apply Forall_app. split; [exact IH | repeat constructor; apply HP].
    + destruct (run_rejected today f ss E) as [-> _]. exact IH.
Qed.

End WeightTrackerFacts.

Module ProducedFacts.
Import PyDate Streamlit Pandas Sqlite HealthTracker HealthTrackerSpec HealthTrackerFacts.

(** What holds of every row the forms can write holds of every row of a
    store the program produced. *)
Lemma store_invariant (P : weight_row -> Prop) (Q : bp_row -> Prop) :
  (forall today f id, P (weight_row_of_form today f id)) ->
  (forall today f id, Q (bp_row_of_form today f id)) ->
  forall file, produced file ->
    Forall P (stored_weights file) /\ Forall Q (stored_bp file).
Proof.
  intros HP HQ file Hfile. induction Hfile as [| today i file Hfile [IHw IHb]].
  - split; constructor.
  - destruct i as [f | f].
    + destruct (weight_accepted f) eqn:E.
      * destruct (run_weight_accepted today f file E) as (-> & -> & _).
        split; [| exact IHb].
        apply Forall_app. split; [exact IHw | repeat constructor; apply HP].
      * destruct (run_weight_rejected today f file E) as (-> & _).
        now rewrite SqliteFacts.stored_weights_init_db, SqliteFacts.stored_bp_init_db.
    + destruct (bp_accepted f) eqn:E.
      * destruct (run_bp_accepted today f file E) as (-> & -> & _).
        split; [exact IHw |].
        apply Forall_app. split; [exact IHb | repeat constructor; apply HQ].
      * destruct (run_bp_rejected today f file E) as (-> & _).
        now rewrite SqliteFacts.stored_weights_init_db, SqliteFacts.stored_bp_init_db.
Qed.

Lemma next_weight_id_above (file : database) :
  Forall (fun r => (w_id r < next_weight_id file)%Z) (stored_weights file).
Proof.
  destruct file as [[t |] b]; simpl; [| constructor].
  eapply Forall_impl; [| apply (SqliteFacts.rowid_le_max (rows t))].
  simpl. unfold next_weight_id, next_rowid. simpl. intros; lia.
Qed.

Lemma next_bp_id_above (file : database) :
  Forall (fun r => (b_id r < next_bp_id file)%Z) (stored_bp file).
Proof.
  destruct file as [w [t |]]; simpl; [| constructor].
  eapply Forall_impl; [| apply (SqliteFacts.rowid_le_max (rows t))].
  simpl. unfold next_bp_id, next_rowid. simpl. intros; lia.
Qed.

(** Every store the program produces has its rows in rowid order. *)
Lemma produced_well_formed (file : database) : produced file -> well_formed file.
Proof.
  intros Hfile. induction Hfile as [| today i file Hfile [IHw IHb]].
  - split; constructor.
  - unfold well_formed. destruct i as [f | f].
    + destruct (weight_accepted f) eqn:E.
      * destruct (run_weight_accepted today f file E) as (-> & -> & _).
        split; [| exact IHb].
        apply StronglySorted_snoc; [exact IHw | apply next_weight_id_above].
      * destruct (run_weight_rejected today f file E) as (-> & _).
        now rewrite SqliteFacts.stored_weights_init_db, SqliteFacts.stored_bp_init_db.
    + destruct (bp_accepted f) eqn:E.
      * destruct (run_bp_accepted today f file E) as (-> & -> & _).
        split; [exact IHw |].
        apply StronglySorted_snoc; [exact IHb | apply next_bp_id_above].
      * destruct (run_bp_rejected today f file E) as (-> & _).
        now rewrite SqliteFacts.stored_weights_init_db, SqliteFacts.stored_bp_init_db.
Qed.

End ProducedFacts.

(* ================================================================= *)
(** ** Validation of the weight form *)

(** C1. When the weight form is submitted with a weight that is not
    positive, no record is created (the stored weights and their count are
    unchanged) and the page shows the warning; with a positive weight the
    submission is accepted and exactly one entry with that date and weight
    is added.  This holds of the health tracker's store and of the
    prototype's log. *)
Theorem append_weight_validation
    (today : PyDate.date) (f : HealthTracker.weight_form) (g : WeightTracker.form)
    (file : Sqlite.database) (ss : WeightTracker.session_state) :
  HealthTracker.wf_add_button f = true ->
  WeightTracker.f_add_button g = true ->
  (Streamlit.number_input 0 (HealthTracker.wf_weight f) <= 0 ->
     Sqlite.stored_weights (fst (HealthTracker.run today (HealthTracker.Weight_Tracker f) file))
     = Sqlite.stored_weights file /\
     Sqlite.count_weights (fst (HealthTracker.run today (HealthTracker.Weight_Tracker f) file))
     = Sqlite.count_weights file /\
     HealthTracker.page_alert (snd (HealthTracker.run today (HealthTracker.Weight_Tracker f) file))
     = Some (Streamlit.warning HealthTracker.invalid_weight)) /\
  (0 < Streamlit.number_input 0 (HealthTracker.wf_weight f) ->
     (exists r,
        Sqlite.stored_weights (fst (HealthTracker.run today (HealthTracker.Weight_Tracker f) file))
        = Sqlite.stored_weights file ++ [r] /\
        Sqlite.w_date r = PyDate.isoformat (Streamlit.date_input today (HealthTracker.wf_date f)) /\
        Sqlite.w_weight r = Streamlit.number_input 0 (HealthTracker.wf_weight f)) /\
     Sqlite.count_weights (fst (HealthTracker.run today (HealthTracker.Weight_Tracker f) file))
     = S (Sqlite.count_weights file) /\
     HealthTracker.page_alert (snd (HealthTracker.run today (HealthTracker.Weight_Tracker f) file))
     = Some Streamlit.success) /\
  (Streamlit.number_input 0 (WeightTracker.f_weight g) <= 0 ->
     fst (WeightTracker.run today g ss) = Some (WeightTracker.setup ss) /\
     fst (snd (WeightTracker.run today g ss))
     = Some (Streamlit.warning WeightTracker.invalid_weight)) /\
  (0 < Streamlit.number_input 0 (WeightTracker.f_weight g) ->
     (exists e,
        fst (WeightTracker.run today g ss) = Some (WeightTracker.setup ss ++ [e]) /\
        WeightTracker.Date e = Streamlit.date_input today (WeightTracker.f_date g) /\
        WeightTracker.Weight e = Streamlit.number_input 0 (WeightTracker.f_weight g)) /\
     fst (snd (WeightTracker.run today g ss)) = Some Streamlit.success).
Proof.
  intros Hf Hg. repeat apply conj.
  - intros Hw. apply Qltb_ge in Hw.
    destruct (HealthTrackerFacts.run_weight_rejected today f file) as [E A].
    { unfold HealthTrackerSpec.weight_accepted. now rewrite Hf, Hw. }
    rewrite E, A, Hf, HealthTrackerFacts.count_weights_length,
      SqliteFacts.stored_weights_init_db, HealthTrackerFacts.count_weights_length.
    auto.
  - intros Hw. apply Qltb_lt in Hw.
    destruct (HealthTrackerFacts.run_weight_accepted today f file) as (E & _ & A).
    { unfold HealthTrackerSpec.weight_accepted. now rewrite Hf, Hw. }
    rewrite A, !HealthTrackerFacts.count_weights_length, E. repeat split.
    + eexists. split; [reflexivity |]. split; reflexivity.
    + rewrite length_app. simpl. lia.
  - intros Hw. apply Qltb_ge in Hw.
    destruct (WeightTrackerFacts.run_rejected today g ss) as [E A].
    { unfold WeightTrackerSpec.accepted. now rewrite Hg, Hw. }
    now rewrite E, A, Hg.
  - intros Hw. apply Qltb_lt in Hw.
    destruct (WeightTrackerFacts.run_accepted today g ss) as [E A].
    { unfold WeightTrackerSpec.accepted. now rewrite Hg, Hw. }
    rewrite E, A. split; [| reflexivity].
    eexists. split; [reflexivity |]. split; reflexivity.
Qed.

Lemma append_weight_validation_witness :
  (exists r,
     Sqlite.stored_weights
       (fst (HealthTracker.run sample_today (HealthTracker.Weight_Tracker sample_weight_form)
               Sqlite.fresh))
     = Sqlite.stored_weights Sqlite.fresh ++ [r] /\
     Sqlite.w_date r = "2024-03-07" /\
     Sqlite.w_weight r = 72.5) /\
  (exists e,
     fst (WeightTracker.run sample_today sample_form None) = Some ([] ++ [e]) /\
     WeightTracker.Date e = sample_today /\
     WeightTracker.Weight e = 72.5).
Proof.
  pose proof (append_weight_validation sample_today sample_weight_form sample_form
                Sqlite.fresh None eq_refl eq_refl) as (_ & H & _ & K).
  split.
  - exact (proj1 (H eq_refl)).
  - exact (proj1 (K eq_refl)).
Defined.

(* ================================================================= *)
(** ** Body fat of zero is stored as no value *)

Lemma stored_body_fat_cases (typed : option Q) (stored : option Q) :
  stored = (if Qltb 0 (Streamlit.number_input 0 typed)
            then Some (Streamlit.number_input 0 typed) else None) ->
  (typed = None -> stored = None) /\
  (forall v, typed = Some v -> v == 0 -> stored = None) /\
  (forall v, typed = Some v -> 0 < v -> stored = Some v) /\
  (forall x, stored = Some x -> ~ x == 0).
Proof.
  intros ->. repeat apply conj.
  - intros ->. reflexivity.
  - intros v -> Hv. simpl.
    replace (Qltb 0 v) with false; [reflexivity |].
    symmetry. apply Qltb_ge. rewrite Hv. apply Qle_refl.
  - intros v -> Hv. simpl. apply Qltb_lt in Hv. now rewrite Hv.
  - intros x. destruct (Qltb 0 (Streamlit.number_input 0 typed)) eqn:E; [| discriminate].
    intros [= <-]. apply Qltb_lt in E. intros Hx. rewrite Hx in E.
    now apply Qlt_irrefl in E.
Qed.

(** C4. For every accepted weight submission the stored body fat is no
    value when the body-fat field was left alone or holds 0, it is the
    entered value when that is positive, and it is never 0.  This holds of
    the health tracker's store and of the prototype's log. *)
Theorem bodyfat_zero_stored_as_null
    (today : PyDate.date) (f : HealthTracker.weight_form) (g : WeightTracker.form)
    (file : Sqlite.database) (ss : WeightTracker.session_state) :
  HealthTracker.wf_add_button f = true ->
  0 < Streamlit.number_input 0 (HealthTracker.wf_weight f) ->
  WeightTracker.f_add_button g = true ->
  0 < Streamlit.number_input 0 (WeightTracker.f_weight g) ->
  (exists r,
     Sqlite.stored_weights (fst (HealthTracker.run today (HealthTracker.Weight_Tracker f) file))
     = Sqlite.stored_weights file ++ [r] /\
     (HealthTracker.wf_bodyfat f = None -> Sqlite.w_body_fat r = None) /\
     (forall v, HealthTracker.wf_bodyfat f = Some v -> v == 0 -> Sqlite.w_body_fat r = None) /\
     (forall v, HealthTracker.wf_bodyfat f = Some v -> 0 < v -> Sqlite.w_body_fat r = Some v) /\
     (forall x, Sqlite.w_body_fat r = Some x -> ~ x == 0)) /\
  (exists e,
     fst (WeightTracker.run today g ss) = Some (WeightTracker.setup ss ++ [e]) /\
     (WeightTracker.f_bodyfat g = None -> WeightTracker.Body_Fat e = None) /\
     (forall v, WeightTracker.f_bodyfat g = Some v -> v == 0 -> WeightTracker.Body_Fat e = None) /\
     (forall v, WeightTracker.f_bodyfat g = Some v -> 0 < v -> WeightTracker.Body_Fat e = Some v) /\
     (forall x, WeightTracker.Body_Fat e = Some x -> ~ x == 0)).
Proof.
  intros Hf Hw Hg Hv. apply Qltb_lt in Hw, Hv. split.
  - destruct (HealthTrackerFacts.run_weight_accepted today f file) as (E & _).
    { unfold HealthTrackerSpec.weight_accepted. now rewrite Hf, Hw. }
    eexists. split; [exact E |].
    apply stored_body_fat_cases. reflexivity.
  - destruct (WeightTrackerFacts.run_accepted today g ss) as (E & _).
    { unfold WeightTrackerSpec.accepted. now rewrite Hg, Hv. }
    eexists. split; [exact E |].
    apply stored_body_fat_cases. reflexivity.
Qed.

Lemma bodyfat_zero_stored_as_null_witness :
  (exists r,
     Sqlite.stored_weights
       (fst (HealthTracker.run sample_today
               (HealthTracker.Weight_Tracker zero_bodyfat_weight_form) Sqlite.fresh))
     = [r] /\ Sqlite.w_body_fat r = None) /\
  (exists e,
     fst (WeightTracker.run sample_today no_bodyfat_form None) = Some [e] /\
     WeightTracker.Body_Fat e = None).
Proof.
  destruct (bodyfat_zero_stored_as_null sample_today zero_bodyfat_weight_form no_bodyfat_form
              Sqlite.fresh None eq_refl eq_refl eq_refl eq_refl)
    as [[r (Er & _ & Hr & _)] [e (Ee & He & _)]].
  split.
  - exists r. split; [exact Er |]. apply (Hr 0 eq_refl). reflexivity.
  - exists e. split; [exact Ee |]. apply He. reflexivity.
Defined.

(* ================================================================= *)
(** ** Notes are always text *)

(** C10. In every store the program produced from a fresh file, and in
    every log the prototype produced from an empty session, the notes of
    every record are a text, never the null value; a form whose notes were
    left blank stores the empty text. *)
Theorem notes_never_null
    (file : Sqlite.database) (ss : WeightTracker.session_state) :
  HealthTracker.produced file ->
  WeightTracker.produced ss ->
  Forall (fun r => Sqlite.w_notes r <> None) (Sqlite.stored_weights file) /\
  Forall (fun r => Sqlite.b_notes r <> None) (Sqlite.stored_bp file) /\
  Forall (fun e => WeightTracker.Notes e <> None) (WeightTracker.setup ss) /\
  (forall today f,
     HealthTrackerSpec.weight_accepted f = true -> HealthTracker.wf_notes f = None ->
     exists r,
       Sqlite.stored_weights (fst (HealthTracker.run today (HealthTracker.Weight_Tracker f) file))
       = Sqlite.stored_weights file ++ [r] /\ Sqlite.w_notes r = Some "") /\
  (forall today f,
     HealthTrackerSpec.bp_accepted f = true -> HealthTracker.bf_notes f = None ->
     exists r,
       Sqlite.stored_bp (fst (HealthTracker.run today (HealthTracker.Blood_Pressure_Tracker f) file))
       = Sqlite.stored_bp file ++ [r] /\ Sqlite.b_notes r = Some "") /\
  (forall today g,
     WeightTrackerSpec.accepted g = true -> WeightTracker.f_notes g = None ->
     exists e,
       fst (WeightTracker.run today g ss) = Some (WeightTracker.setup ss ++ [e]) /\
       WeightTracker.Notes e = Some "").
Proof.
  intros Hfile Hss.
  destruct (ProducedFacts.store_invariant
              (fun r => Sqlite.w_notes r <> None) (fun r => Sqlite.b_notes r <> None))
    with (file := file) as [Hw Hb]; try easy.
  repeat apply conj; try assumption.
  - apply WeightTrackerFacts.log_invariant; easy.
  - intros today f Hf Hn.
    destruct (HealthTrackerFacts.run_weight_accepted today f file Hf) as (E & _).
    eexists. split; [exact E |]. simpl. now rewrite Hn.
  - intros today f Hf Hn.
    destruct (HealthTrackerFacts.run_bp_accepted today f file Hf) as (E & _).
    eexists. split; [exact E |]. simpl. now rewrite Hn.
  - intros today g Hg Hn.
    destruct (WeightTrackerFacts.run_accepted today g ss Hg) as (E & _).
    eexists. split; [exact E |]. simpl. now rewrite Hn.
Qed.

Lemma notes_never_null_witness :
  Forall (fun r => Sqlite.w_notes r <> None) (Sqlite.stored_weights sample_file) /\
  Forall (fun r => Sqlite.b_notes r <> None) (Sqlite.stored_bp sample_file) /\
  Forall (fun e => WeightTracker.Notes e <> None) (WeightTracker.setup sample_session).
Proof.
  destruct (notes_never_null sample_file sample_session) as (Hw & Hb & He & _).
  - apply HealthTracker.produced_run, HealthTracker.produced_run, HealthTracker.produced_fresh.
  - apply WeightTracker.produced_run, WeightTracker.produced_start.
  - exact (conj Hw (conj Hb He)).
Defined.

Example sample_file_rows :
  map Sqlite.w_notes (Sqlite.stored_weights sample_file) = [Some ""] /\
  map Sqlite.b_notes (Sqlite.stored_bp sample_file) = [Some ""].
Proof. split; reflexivity. Qed.

(* ================================================================= *)
(** ** Persistence across a restart *)

(** C2, as stated, fails on the prototype: its log lives in the session
    state, and after a restart the entry that was appended is gone. *)
Lemma session_log_lost_on_restart :
  weight_tracker_weights (mk_world Sqlite.fresh sample_session)
  = [WeightTracker.mk_entry sample_today 72.5 None (Some "")] /\
  weight_tracker_weights (restart (mk_world Sqlite.fresh sample_session)) = [] /\
  weight_tracker_weights (restart (mk_world Sqlite.fresh sample_session))
  <> weight_tracker_weights (mk_world Sqlite.fresh sample_session).
Proof. split; [reflexivity | split; [reflexivity | discriminate]]. Qed.

(** After a run both tables exist. *)
Lemma run_initialised (today : PyDate.date) (i : HealthTracker.interaction)
    (file : Sqlite.database) :
  exists t u, fst (HealthTracker.run today i file) = Sqlite.mk_database (Some t) (Some u).
Proof.
  unfold HealthTracker.run, HealthTracker.weight_section, HealthTracker.bp_section,
    HealthTracker.submit_weight, HealthTracker.submit_bp.
  destruct file as [[t |] [u |]], i as [f | f]; cbn -[Qltb Z.ltb];
    repeat match goal with |- context [if ?b then _ else _] => destruct b end;
    cbn -[Qltb Z.ltb]; eauto.
Qed.

Lemma insert_weight_init_db (entry_date : string) (weight : Q) (body_fat : option Q)
    (notes : option string) (file : Sqlite.database) :
  exists file',
    Sqlite.insert_weight entry_date weight body_fat notes (Sqlite.init_db file) = Ok file' /\
    Sqlite.stored_weights file'
    = Sqlite.stored_weights file
      ++ [Sqlite.mk_weight_row (HealthTrackerSpec.next_weight_id file)
            entry_date weight body_fat notes].
Proof. destruct file as [[t |] [u |]]; eexists; split; reflexivity. Qed.

Lemma insert_bp_init_db (entry_date : string) (systolic diastolic : Z)
    (notes : option string) (file : Sqlite.database) :
  exists file',
    Sqlite.insert_bp entry_date systolic diastolic notes (Sqlite.init_db file) = Ok file' /\
    Sqlite.stored_bp file'
    = Sqlite.stored_bp file
      ++ [Sqlite.mk_bp_row (HealthTrackerSpec.next_bp_id file)
            entry_date systolic diastolic notes].
Proof. destruct file as [[t |] [u |]]; eexists; split; reflexivity. Qed.

(** C2, amended. For every state of the SQLite store, what the health
    tracker lists after a restart with no new writes is the sequence it
    listed before, in the same order; every insert has committed when it
    returns, so the new record is listed after a restart.  The prototype
    keeps its log in the session state only, and lists nothing after a
    restart. *)
Theorem sqlite_store_survives_restart
    (today : PyDate.date) (i : HealthTracker.interaction) (w : world) :
  health_tracker_weights (restart w) = health_tracker_weights w /\
  health_tracker_bp (restart w) = health_tracker_bp w /\
  (exists lw lb,
     Sqlite.load_weights (fst (HealthTracker.run today i (file w))) = Ok lw /\
     Sqlite.load_bp (fst (HealthTracker.run today i (file w))) = Ok lb /\
     health_tracker_weights
       (restart (mk_world (fst (HealthTracker.run today i (file w))) (session w))) = Ok lw /\
     health_tracker_bp
       (restart (mk_world (fst (HealthTracker.run today i (file w))) (session w))) = Ok lb) /\
  (forall entry_date weight body_fat notes,
     exists file' l,
       Sqlite.insert_weight entry_date weight body_fat notes (Sqlite.init_db (file w)) = Ok file' /\
       health_tracker_weights (restart (mk_world file' (session w))) = Ok l /\
       In (Sqlite.mk_weight_row (HealthTrackerSpec.next_weight_id (file w))
             entry_date weight body_fat notes) l /\
       List.length l = S (Sqlite.count_weights (file w))) /\
  (forall entry_date systolic diastolic notes,
     exists file' l,
       Sqlite.insert_bp entry_date systolic diastolic notes (Sqlite.init_db (file w)) = Ok file' /\
       health_tracker_bp (restart (mk_world file' (session w))) = Ok l /\
       In (Sqlite.mk_bp_row (HealthTrackerSpec.next_bp_id (file w))
             entry_date systolic diastolic notes) l /\
       List.length l = S (Sqlite.count_bp (file w))) /\
  weight_tracker_weights (restart w) = [].
Proof.
  repeat apply conj.
  - reflexivity.
  - reflexivity.
  - destruct (run_initialised today i (file w)) as (t & u & Hinit). rewrite Hinit.
    do 2 eexists. repeat split; reflexivity.
  - intros entry_date weight body_fat notes.
    destruct (insert_weight_init_db entry_date weight body_fat notes (file w)) as (file' & E & S).
    exists file'. eexists. split; [exact E |].
    unfold health_tracker_weights, restart; cbn [file].
    split; [apply SqliteFacts.load_weights_init_db |]. rewrite S. split.
    + apply (Permutation_in _ (stable_sort_perm Sqlite.date_leb _)).
      apply in_or_app. right. now left.
    + rewrite stable_sort_length, length_app, HealthTrackerFacts.count_weights_length.
      simpl. lia.
  - intros entry_date systolic diastolic notes.
    destruct (insert_bp_init_db entry_date systolic diastolic notes (file w)) as (file' & E & S).
    exists file'. eexists. split; [exact E |].
    unfold health_tracker_bp, restart; cbn [file].
    split; [apply SqliteFacts.load_bp_init_db |]. rewrite S. split.
    + apply (Permutation_in _ (stable_sort_perm Sqlite.date_leb _)).
      apply in_or_app. right. now left.
    + rewrite stable_sort_length, length_app, HealthTrackerFacts.count_bp_length.
      simpl. lia.
  - reflexivity.
Qed.

(* ================================================================= *)
(** ** Facts about [Series.min] and [Series.max] *)

Section ReductionFacts.
Context {A : Type} (ltb : A -> A -> bool) (le : A -> A -> Prop).
Hypothesis ltb_le : forall a b, ltb a b = true -> le a b.
Hypothesis ltb_ge : forall a b, ltb a b = false -> le b a.
Hypothesis le_refl : forall a, le a a.
Hypothesis le_trans : forall a b c, le a b -> le b c -> le a c.

Lemma fold_pick_min (xs : list A) : forall a,
  exists m, fold_left (Pandas.pick_min ltb) (map Some xs) (Some a) = Some m /\
            In m (a :: xs) /\ le m a /\ Forall (le m) xs.
Proof.
  induction xs as [| x xs IH]; intros a; simpl.
  - exists a. auto.
  - destruct (ltb x a) eqn:E.
    + destruct (IH x) as (m & Hm & Hin & Hle & Hall). exists m.
      split; [exact Hm |]. split; [right; exact Hin |].
      split; [apply (le_trans m x a); auto |].
      constructor; assumption.
    + destruct (IH a) as (m & Hm & Hin & Hle & Hall). exists m.
      split; [exact Hm |]. split; [destruct Hin; auto |].
      split; [exact Hle |].
      constructor; [apply (le_trans m a x); auto | assumption].
Qed.

Lemma fold_pick_max (xs : list A) : forall a,
  exists m, fold_left (Pandas.pick_max ltb) (map Some xs) (Some a) = Some m /\
            In m (a :: xs) /\ le a m /\ Forall (fun x => le x m) xs.
Proof.
  induction xs as [| x xs IH]; intros a; simpl.
  - exists a. auto.
  - destruct (ltb a x) eqn:E.
    + destruct (IH x) as (m & Hm & Hin & Hle & Hall). exists m.
      split; [exact Hm |]. split; [right; exact Hin |].
      split; [apply (le_trans a x m); auto |].
      constructor; assumption.
    + destruct (IH a) as (m & Hm & Hin & Hle & Hall). exists m.
      split; [exact Hm |]. split; [destruct Hin; auto |].
      split; [exact Hle |].
      constructor; [apply (le_trans x a m); auto | assumption].
Qed.

(** Over a column without missing values that is not empty, [min] is a
    least and [max] a greatest value of the column. *)
Lemma min_present (xs : list A) :
  xs <> [] ->
  exists m, Pandas.min ltb (map Some xs) = Some m /\ In m xs /\ Forall (le m) xs.
Proof.
  destruct xs as [| x xs]; [congruence | intros _].
  destruct (fold_pick_min xs x) as (m & Hm & Hin & Hle & Hall).
  exists m. repeat split; auto.
Qed.

Lemma max_present (xs : list A) :
  xs <> [] ->
  exists m, Pandas.max ltb (map Some xs) = Some m /\ In m xs /\ Forall (fun x => le x m) xs.
Proof.
  destruct xs as [| x xs]; [congruence | intros _].
  destruct (fold_pick_max xs x) as (m & Hm & Hin & Hle & Hall).
  exists m. repeat split; auto.
Qed.

(** Over a column of missing values only, [min] is missing. *)
Lemma min_all_missing (s : list (option A)) :
  Forall (fun x => x = None) s -> Pandas.min ltb s = None.
Proof.
  unfold Pandas.min. induction 1 as [| x s Hx Hs IH]; simpl; [reflexivity |].
  now rewrite Hx.
Qed.

End ReductionFacts.

(* ================================================================= *)
(** ** Facts about the pages *)

Module PageFacts.
Import PyDate Streamlit Pandas Sqlite HealthTracker.

Lemma Qltb_le (a b : Q) : Qltb a b = true -> a <= b.
Proof. intros H. apply Qlt_le_weak. now apply Qltb_lt. Qed.

Lemma Qltb_false_le (a b : Q) : Qltb a b = false -> b <= a.
Proof. apply Qltb_ge. Qed.

Lemma Zltb_le (a b : Z) : (a <? b)%Z = true -> (a <= b)%Z.
Proof. intros H. apply Z.ltb_lt in H. lia. Qed.

Lemma Zltb_false_le (a b : Z) : (a <? b)%Z = false -> (b <= a)%Z.
Proof. intros H. apply Z.ltb_ge in H. lia. Qed.

Lemma render_weights_dashboard (loaded : list weight_row) (data : list weight_record) :
  mapM weight_record_of loaded = Ok data -> data <> [] ->
  render_weights loaded
  = Ok (weight_dashboard
          (mk_weight_charts
             (weight_yaxis_range targetWeight data)
             targetWeight
             (bodyfat_yaxis_range minTargetBodyFat maxTargetBodyFat data)
             (minTargetBodyFat, maxTargetBodyFat)
             weight_table_columns
             (to_csv (weight_frame data)))).
Proof.
  intros Hdata Hne. destruct loaded as [| r loaded].
  - simpl in Hdata. congruence.
  - unfold render_weights. now rewrite Hdata.
Qed.

Lemma render_bp_dashboard (loaded : list bp_row) (data_bp : list bp_record) :
  mapM bp_record_of loaded = Ok data_bp -> data_bp <> [] ->
  render_bp loaded
  = Ok (bp_dashboard
          (mk_bp_charts
             (pressure_yaxis_range minTargetSystolic maxTargetSystolic
                minTargetDiastolic maxTargetDiastolic data_bp)
             (minTargetSystolic, maxTargetSystolic)
             (minTargetDiastolic, maxTargetDiastolic)
             bp_table_columns
             (to_csv (bp_frame data_bp)))).
Proof.
  intros Hdata Hne. destruct loaded as [| r loaded].
  - simpl in Hdata. congruence.
  - unfold render_bp. now rewrite Hdata.
Qed.

Lemma Weight_column_present (data : list weight_record) :
  Weight_column data = map Some (map Weight data).
Proof. unfold Weight_column. now rewrite map_map. Qed.

Lemma Systolic_column_present (data_bp : list bp_record) :
  Systolic_column data_bp = map Some (map Systolic data_bp).
Proof. unfold Systolic_column. now rewrite map_map. Qed.

Lemma Diastolic_column_present (data_bp : list bp_record) :
  Diastolic_column data_bp = map Some (map Diastolic data_bp).
Proof. unfold Diastolic_column. now rewrite map_map. Qed.

Lemma map_not_nil {A B : Type} (f : A -> B) (l : list A) : l <> [] -> map f l <> [].
Proof. destruct l; simpl; congruence. Qed.

End PageFacts.

(* ================================================================= *)
(** ** Axis range of the weight chart *)

(** C6. For every weight sequence that is not empty, the weight chart's
    axis runs from min(least observed weight, target weight 100) - 10 to the
    greatest observed weight + 10; with least weight 65 and greatest 90 that
    is from 55 to 100. *)
Theorem weight_axis_range
    (loaded : list Sqlite.weight_row) (data : list HealthTracker.weight_record) :
  mapM HealthTracker.weight_record_of loaded = Ok data ->
  data <> [] ->
  exists c m M lo hi,
    HealthTracker.render_weights loaded = Ok (HealthTracker.weight_dashboard c) /\
    HealthTracker.weight_range c = (Some lo, Some hi) /\
    In m (map HealthTracker.Weight data) /\
    (forall r, In r data -> m <= HealthTracker.Weight r) /\
    In M (map HealthTracker.Weight data) /\
    (forall r, In r data -> HealthTracker.Weight r <= M) /\
    HealthTracker.targetWeight == 100 /\
    lo == Qmin m HealthTracker.targetWeight - 10 /\
    hi == M + 10 /\
    (m == 65 -> M == 90 -> lo == 55 /\ hi == 100).
Proof.
  intros Hdata Hne.
  pose proof (PageFacts.map_not_nil HealthTracker.Weight data Hne) as Hne'.
  destruct (min_present Qltb Qle PageFacts.Qltb_le PageFacts.Qltb_false_le
              Qle_refl Qle_trans _ Hne') as (m & Hmin & Hmin_in & Hmin_le).
  destruct (max_present Qltb Qle PageFacts.Qltb_le PageFacts.Qltb_false_le
              Qle_refl Qle_trans _ Hne') as (M & Hmax & Hmax_in & Hmax_le).
  rewrite Forall_forall in Hmin_le, Hmax_le.
  exists (HealthTracker.mk_weight_charts
            (HealthTracker.weight_yaxis_range HealthTracker.targetWeight data)
            HealthTracker.targetWeight
            (HealthTracker.bodyfat_yaxis_range HealthTracker.minTargetBodyFat
               HealthTracker.maxTargetBodyFat data)
            (HealthTracker.minTargetBodyFat, HealthTracker.maxTargetBodyFat)
            HealthTracker.weight_table_columns
            (Pandas.to_csv (HealthTracker.weight_frame data))).
  exists m, M,
    ((if Qltb m HealthTracker.targetWeight then m else HealthTracker.targetWeight) - 10),
    (M + 10).
  split; [now apply PageFacts.render_weights_dashboard |].
  split.
  { cbn [HealthTracker.weight_range].
    unfold HealthTracker.weight_yaxis_range, HealthTracker.minWeight, HealthTracker.maxWeight.
    rewrite PageFacts.Weight_column_present, Hmin, Hmax. cbn [nan_ltb].
    now destruct (Qltb m HealthTracker.targetWeight). }
  split; [exact Hmin_in |].
  split; [intros r Hr; apply Hmin_le; now apply in_map |].
  split; [exact Hmax_in |].
  split; [intros r Hr; apply Hmax_le; now apply in_map |].
  split; [reflexivity |].
  assert (Hlo : (if Qltb m HealthTracker.targetWeight then m else HealthTracker.targetWeight) - 10
                == Qmin m HealthTracker.targetWeight - 10).
  { destruct (Qltb m HealthTracker.targetWeight) eqn:E.
    - rewrite Q.min_l; [reflexivity | now apply PageFacts.Qltb_le].
    - rewrite Q.min_r; [reflexivity | now apply PageFacts.Qltb_false_le]. }
  split; [exact Hlo |].
  split; [reflexivity |].
  intros Hm HM. split.
  - rewrite Hlo, Hm. reflexivity.
  - rewrite HM. reflexivity.
Qed.

Lemma weight_axis_range_witness :
  exists c m M lo hi,
    HealthTracker.render_weights sample_weight_rows = Ok (HealthTracker.weight_dashboard c) /\
    HealthTracker.weight_range c = (Some lo, Some hi) /\
    In m (map HealthTracker.Weight sample_weight_data) /\
    (forall r, In r sample_weight_data -> m <= HealthTracker.Weight r) /\
    In M (map HealthTracker.Weight sample_weight_data) /\
    (forall r, In r sample_weight_data -> HealthTracker.Weight r <= M) /\
    HealthTracker.targetWeight == 100 /\
    lo == Qmin m HealthTracker.targetWeight - 10 /\
    hi == M + 10 /\
    (m == 65 -> M == 90 -> lo == 55 /\ hi == 100).
Proof.
  apply (weight_axis_range sample_weight_rows sample_weight_data).
  - reflexivity.
  - discriminate.
Defined.

Example sample_weight_range :
  HealthTracker.weight_yaxis_range HealthTracker.targetWeight sample_weight_data
  = (Some (65 - 10), Some (90 + 10)).
Proof. reflexivity. Qed.

(* ================================================================= *)
(** ** Axis range of the blood-pressure chart *)



Example sample_pressure_range :
  HealthTracker.pressure_yaxis_range 100 120 60 80 sample_bp_data = (Some 53, Some 141)%Z.
Proof. reflexivity. Qed.

(* ================================================================= *)
(** ** Body-fat axis when no entry has a body-fat value *)

(** C9. For every weight sequence that is not empty and whose entries all
    lack a body-fat value, the minimum of the body-fat column is missing, it
    does not compare below the target, and the lower bound of the body-fat
    axis is the target minimum 11 - 5 = 6; the page shows its charts, not the
    no-data message. *)
Theorem bodyfat_axis_all_null
    (loaded : list Sqlite.weight_row) (data : list HealthTracker.weight_record) :
  mapM HealthTracker.weight_record_of loaded = Ok data ->
  data <> [] ->
  (forall r, In r data -> HealthTracker.Body_Fat r = None) ->
  Pandas.min Qltb (HealthTracker.Body_Fat_column data) = None /\
  nan_ltb (Pandas.min Qltb (HealthTracker.Body_Fat_column data))
    HealthTracker.minTargetBodyFat = false /\
  exists c lo,
    HealthTracker.render_weights loaded = Ok (HealthTracker.weight_dashboard c) /\
    fst (HealthTracker.bodyfat_range c) = Some lo /\
    lo = HealthTracker.minTargetBodyFat - 5 /\
    lo == 6.
Proof.
  intros Hdata Hne Hnull.
  assert (Hmin : Pandas.min Qltb (HealthTracker.Body_Fat_column data) = None).
  { apply min_all_missing. unfold HealthTracker.Body_Fat_column.
    rewrite Forall_map, Forall_forall. exact Hnull. }
  split; [exact Hmin |].
  split; [now rewrite Hmin |].
  eexists. exists (HealthTracker.minTargetBodyFat - 5).
  split; [exact (PageFacts.render_weights_dashboard loaded data Hdata Hne) |].
  split; [| split; reflexivity].
  cbn [HealthTracker.bodyfat_range].
  unfold HealthTracker.bodyfat_yaxis_range, HealthTracker.minBodyFat.
  now rewrite Hmin.
Qed.

Lemma bodyfat_axis_all_null_witness :
  exists c lo,
    HealthTracker.render_weights no_bodyfat_rows = Ok (HealthTracker.weight_dashboard c) /\
    fst (HealthTracker.bodyfat_range c) = Some lo /\
    lo = HealthTracker.minTargetBodyFat - 5 /\
    lo == 6.
Proof.
  apply (bodyfat_axis_all_null no_bodyfat_rows no_bodyfat_data).
  - reflexivity.
  - discriminate.
  - intros r [<- | [<- | []]]; reflexivity.
Defined.

Example no_bodyfat_range :
  HealthTracker.bodyfat_yaxis_range HealthTracker.minTargetBodyFat
    HealthTracker.maxTargetBodyFat no_bodyfat_data
  = (Some (11 - 5), None).
Proof. reflexivity. Qed.

(* ================================================================= *)
(** ** Facts about the rolling mean *)

Module RollingFacts.
Import Pandas RollingSpec.

Lemma sumQ_app (a b : list Q) : sumQ (a ++ b) == sumQ a + sumQ b.
Proof.
  induction a as [| x a IH]; simpl.
  - now rewrite Qplus_0_l.
  - rewrite IH. now rewrite Qplus_assoc.
Qed.

Lemma wsum_first (ws : list Q) (lo len : nat) :
  wsum ws lo (S len) == nth lo ws 0 + wsum ws (S lo) len.
Proof. reflexivity. Qed.

Lemma wsum_last (ws : list Q) (lo len : nat) :
  wsum ws lo (S len) == wsum ws lo len + nth (lo + len) ws 0.
Proof.
  unfold wsum. rewrite seq_S, map_app, sumQ_app. simpl.
  now rewrite Qplus_0_r.
Qed.

Lemma nth_present (ws : list Q) (j : nat) :
  (j < List.length ws)%nat -> @nth pyfloat j (map Some ws) None = Some (nth j ws 0).
Proof.
  revert j. induction ws as [| x ws IH]; intros [| j] H; simpl in *; try lia; auto.
  apply IH. lia.
Qed.

Lemma first_step (w minp : nat) (ws : list Q) (acc : mean_state * list pyfloat) :
  (1 <= w)%nat -> (0 < List.length ws)%nat ->
  at_position w ws 0 (fst (roll_step w minp (map Some ws) acc 0)).
Proof.
  intros Hw Hlen. unfold roll_step, window_start, window_end, over_range.
  cbn [Nat.eqb orb fst].
  replace (0 + 1 - w)%nat with 0%nat by lia.
  cbn [Nat.sub Nat.add seq fold_left].
  rewrite nth_present by lia. unfold at_position. cbn [add_mean mean_init nobs sum_x].
  replace (Nat.min (0 + 1) w) with 1%nat by lia. split; [reflexivity |].
  unfold wsum, sumQ. cbn [Nat.sub Nat.add seq map fold_right]. ring.
Qed.

Lemma next_step (w minp : nat) (ws : list Q) (acc : mean_state * list pyfloat) (i : nat) :
  (2 <= w)%nat -> (1 <= i)%nat -> (i < List.length ws)%nat ->
  at_position w ws (i - 1) (fst acc) ->
  at_position w ws i (fst (roll_step w minp (map Some ws) acc i)).
Proof.
  intros Hw Hi Hlen [Hn Hs]. unfold roll_step, window_start, window_end.
  replace ((i =? 0)%nat || (i - 1 + 1 <=? i + 1 - w)%nat) with false.
  2: { symmetry. apply orb_false_iff. split.
       - apply Nat.eqb_neq. lia.
       - apply Nat.leb_gt. lia. }
  cbn [fst]. unfold over_range.
  replace (i + 1 - (i - 1 + 1))%nat with 1%nat by lia.
  replace (i - 1 + 1)%nat with i in * by lia.
  change (seq i 1) with [i]. cbn [fold_left]. rewrite (nth_present ws i) by lia.
  destruct (Nat.le_gt_cases w i) as [Hwi | Hwi].
  - (* the window is full: one value leaves *)
    replace (i + 1 - w - (i - w))%nat with 1%nat by lia.
    change (seq (i - w) 1) with [(i - w)%nat]. cbn [fold_left].
    rewrite (nth_present ws (i - w)) by lia.
    unfold at_position. cbn [add_mean remove_mean nobs sum_x].
    replace (Nat.min i w) with w in * by lia.
    replace (Nat.min (i + 1) w) with w by lia.
    split; [lia |].
    rewrite Hs.
    destruct w as [| w']; [lia |].
    rewrite wsum_first, wsum_last.
    replace (i + 1 - S w' + w')%nat with i by lia.
    replace (S (i - S w')) with (i + 1 - S w')%nat by lia.
    ring.
  - (* the window is still filling: nothing leaves *)
    replace (i + 1 - w - (i - w))%nat with 0%nat by lia.
    change (seq (i - w) 0) with (@nil nat). cbn [fold_left].
    unfold at_position. cbn [add_mean nobs sum_x].
    replace (Nat.min i w) with i in * by lia.
    replace (Nat.min (i + 1) w) with (i + 1)%nat by lia.
    split; [lia |].
    rewrite Hs.
    replace (i - i)%nat with 0%nat by lia.
    replace (i + 1 - (i + 1))%nat with 0%nat by lia.
    replace (i + 1)%nat with (S i) by lia.
    rewrite wsum_last. reflexivity.
Qed.

Lemma roll_step_out (w minp : nat) (vals : list pyfloat) (acc : mean_state * list pyfloat)
    (i : nat) :
  snd (roll_step w minp vals acc i)
  = snd acc ++ [calc_mean minp (fst (roll_step w minp vals acc i))].
Proof. reflexivity. Qed.

(** The loop over the first [n] positions. *)
Lemma roll_loop (w minp : nat) (ws : list Q) (n : nat) :
  (2 <= w)%nat -> (n <= List.length ws)%nat ->
  let acc := fold_left (roll_step w minp (map Some ws)) (seq 0 n) (mean_init, []) in
  List.length (snd acc) = n /\
  ((1 <= n)%nat -> at_position w ws (n - 1) (fst acc)) /\
  (forall i, (i < n)%nat ->
     exists st, at_position w ws i st /\ nth_error (snd acc) i = Some (calc_mean minp st)).
Proof.
  intros Hw. induction n as [| n IH]; intros Hn.
  - cbn. repeat split; intros; lia.
  - rewrite seq_S, fold_left_app. cbn [Nat.add fold_left].
    destruct IH as (Hlen & Hst & Hout); [lia |].
    set (acc := fold_left (roll_step w minp (map Some ws)) (seq 0 n) (mean_init, [])) in *.
    assert (Hnew : at_position w ws n (fst (roll_step w minp (map Some ws) acc n))).
    { destruct n as [| n].
      - apply first_step; lia.
      - apply next_step; try lia.
        replace (S n - 1)%nat with n in * by lia. apply Hst. lia. }
    cbv zeta. rewrite roll_step_out. split; [| split].
    + rewrite length_app, Hlen. simpl. lia.
    + intros _. replace (S n - 1)%nat with n by lia. exact Hnew.
    + intros i Hi. destruct (Nat.eq_dec i n) as [-> | Hne].
      * eexists. split; [exact Hnew |].
        rewrite nth_error_app2 by lia. rewrite Hlen, Nat.sub_diag. reflexivity.
      * destruct (Hout i) as (st & Hpos & Hnth); [lia |].
        exists st. split; [exact Hpos |].
        rewrite nth_error_app1 by lia. exact Hnth.
Qed.

(** The rolling mean over present values, window by window. *)
Lemma rolling_mean_present (w : nat) (ws : list Q) :
  (2 <= w)%nat ->
  List.length (rolling_mean w (map Some ws)) = List.length ws /\
  (forall i, (i < List.length ws)%nat -> (i + 1 < w)%nat ->
     nth_error (rolling_mean w (map Some ws)) i = Some None) /\
  (forall i, (i < List.length ws)%nat -> (w <= i + 1)%nat ->
     exists m, nth_error (rolling_mean w (map Some ws)) i = Some (Some m) /\
               m == wsum ws (i + 1 - w) w / inject_Z (Z.of_nat w)).
Proof.
  intros Hw. unfold rolling_mean, roll_mean. rewrite length_map.
  destruct (roll_loop w w ws (List.length ws) Hw (Nat.le_refl _)) as (Hlen & _ & Hout).
  split; [exact Hlen | split].
  - intros i Hi Hshort. destruct (Hout i Hi) as (st & [Hn _] & Hnth).
    rewrite Hnth. unfold calc_mean.
    replace (w <=? nobs st)%nat with false; [reflexivity |].
    symmetry. apply Nat.leb_gt. lia.
  - intros i Hi Hfull. destruct (Hout i Hi) as (st & [Hn Hs] & Hnth).
    rewrite Hnth. unfold calc_mean.
    replace (Nat.min (i + 1) w) with w in * by lia.
    replace (w <=? nobs st)%nat with true by (symmetry; apply Nat.leb_le; lia).
    replace (0 <? nobs st)%nat with true by (symmetry; apply Nat.ltb_lt; lia).
    cbn [andb]. eexists. split; [reflexivity |].
    rewrite Hs, Hn. reflexivity.
Qed.

End RollingFacts.

(* ================================================================= *)
(** ** The rolling trend *)

(** C5. For every weight sequence, the trend of window 3 has one position
    per entry; positions 0 and 1, which have fewer than two entries before
    them, carry no value; every later position [i] carries the mean of the
    weights at [i-2], [i-1] and [i].  Over 70, 71, 72, 73 that is no value,
    no value, 71 and 72. *)
Theorem rolling_trend_window_3 (data : list WeightTracker.entry) :
  List.length (WeightTracker.Trend data) = List.length data /\
  (forall i, (i < List.length data)%nat -> (i < 3 - 1)%nat ->
     nth_error (WeightTracker.Trend data) i = Some None) /\
  (forall i, (i < List.length data)%nat -> (3 - 1 <= i)%nat ->
     exists m,
       nth_error (WeightTracker.Trend data) i = Some (Some m) /\
       m == (nth (i - 2) (map WeightTracker.Weight data) 0
             + nth (i - 1) (map WeightTracker.Weight data) 0
             + nth i (map WeightTracker.Weight data) 0) / 3) /\
  map (option_map Qred) (WeightTracker.Trend four_entries) = [None; None; Some 71; Some 72].
Proof.
  unfold WeightTracker.Trend, WeightTracker.Weight_column.
  rewrite <- (map_map WeightTracker.Weight Some).
  destruct (RollingFacts.rolling_mean_present 3 (map WeightTracker.Weight data))
    as (Hlen & Hnone & Hmean); [lia |].
  rewrite length_map in Hlen, Hnone, Hmean.
  split; [exact Hlen |]. split; [| split].
  - intros i Hi Hshort. apply Hnone; simpl in *; lia.
  - intros i Hi Hfull. destruct (Hmean i Hi) as (m & Hnth & Hm); [simpl in *; lia |].
    exists m. split; [exact Hnth |]. rewrite Hm.
    simpl in Hfull.
    unfold RollingSpec.wsum, RollingSpec.sumQ.
    replace (i + 1 - 3)%nat with (i - 2)%nat by lia.
    cbn [seq map fold_right].
    replace (S (i - 2)) with (i - 1)%nat by lia.
    replace (S (i - 1)) with i by lia.
    change (inject_Z (Z.of_nat 3)) with 3.
    field.
  - reflexivity.
Qed.

(* ================================================================= *)
(** ** Facts about the exports *)

Module ExportFacts.
Import PyDate Streamlit Pandas Sqlite HealthTracker HealthTrackerSpec.

Lemma mapM_Forall2 {A B : Type} (f : A -> result B) (P : A -> B -> Prop) (l : list A) :
  Forall (fun a => exists b, f a = Ok b /\ P a b) l ->
  exists bs, mapM f l = Ok bs /\ Forall2 P l bs.
Proof.
  induction 1 as [| a l (b & Hb & HP) Hl (bs & Hbs & HF)]; simpl.
  - exists []. split; [reflexivity | constructor].
  - exists (b :: bs). rewrite Hb, Hbs. split; [reflexivity | now constructor].
Qed.

Lemma to_datetime_dated (s : string) (d : date) : dated s d -> to_datetime s = Ok d.
Proof.
  intros [Hok ->]. unfold to_datetime.
  now rewrite PyDateFacts.fromisoformat_isoformat.
Qed.

Lemma weight_records_of_dated (l : list weight_row) :
  dated_rows l ->
  exists data, mapM weight_record_of l = Ok data /\ Forall2 read_as_weight l data.
Proof.
  intros H. apply mapM_Forall2. eapply Forall_impl; [| exact H].
  intros r [d Hd]. unfold weight_record_of.
  cbn [date_text weight_row_Row] in Hd.
  rewrite (to_datetime_dated _ _ Hd). eexists. split; [reflexivity |]. exact Hd.
Qed.

Lemma bp_records_of_dated (l : list bp_row) :
  dated_rows l ->
  exists data, mapM bp_record_of l = Ok data /\ Forall2 read_as_bp l data.
Proof.
  intros H. apply mapM_Forall2. eapply Forall_impl; [| exact H].
  intros r [d Hd]. unfold bp_record_of.
  cbn [date_text bp_row_Row] in Hd.
  rewrite (to_datetime_dated _ _ Hd). eexists. split; [reflexivity |]. exact Hd.
Qed.

(** Rows in the byte order of their date texts are read as records in the
    order of their dates. *)
Lemma ascending_of_dated {R X : Type} (text : R -> string) (dt : X -> date)
    (l : list R) (data : list X) :
  StronglySorted (fun a b => String.leb (text a) (text b) = true) l ->
  Forall2 (fun r x => dated (text r) (dt x)) l data ->
  ascending (map dt data).
Proof.
  intros Hs HF. induction HF as [| r x l data Hrx HF IH]; simpl.
  - constructor.
  - inversion Hs as [| ? ? Hl Hr]; subst. constructor; [now apply IH |].
    clear IH Hs Hl. induction HF as [| r' x' l data Hrx' HF IH]; simpl.
    + constructor.
    + inversion Hr as [| ? ? Hle Hr']; subst. constructor; [| now apply IH].
      destruct Hrx as [Hok E], Hrx' as [Hok' E']. rewrite E, E' in Hle.
      now rewrite PyDateFacts.leb_isoformat in Hle.
Qed.

Lemma timestamps_map (ds : list date) : timestamps (map Timestamp ds) = ds.
Proof. induction ds; simpl; congruence. Qed.

Lemma weight_csv_dates (data : list weight_record) :
  csv_dates (to_csv (weight_frame data)) = map Date data.
Proof.
  unfold csv_dates, csv_column.
  change (index_of "Date" (header (to_csv (weight_frame data)))) with (Some 1%nat).
  change (lines (to_csv (weight_frame data))) with (map weight_cells data).
  induction data as [| r data IH]; simpl; [reflexivity | now rewrite IH].
Qed.

Lemma bp_csv_dates (data_bp : list bp_record) :
  csv_dates (to_csv (bp_frame data_bp)) = map bp_Date data_bp.
Proof.
  unfold csv_dates, csv_column.
  change (index_of "Date" (header (to_csv (bp_frame data_bp)))) with (Some 1%nat).
  change (lines (to_csv (bp_frame data_bp))) with (map bp_cells data_bp).
  induction data_bp as [| r data_bp IH]; simpl; [reflexivity | now rewrite IH].
Qed.

Lemma Forall2_length_eq {A B : Type} (P : A -> B -> Prop) (l : list A) (m : list B) :
  Forall2 P l m -> List.length m = List.length l.
Proof. induction 1; simpl; congruence. Qed.

Lemma zip_append_combine (rows : list (list cell)) (col : list cell) :
  List.length col = List.length rows ->
  zip_append rows col = map (fun p => fst p ++ [snd p]) (combine rows col).
Proof.
  revert col. induction rows as [| r rows IH]; intros [| c col] H; simpl in *;
    try reflexivity; try discriminate.
  f_equal. apply IH. lia.
Qed.

Lemma entry_csv (data : list WeightTracker.entry) :
  header (to_csv (WeightTracker.frame data)) = WeightTracker.table_columns ++ ["Trend"] /\
  lines (to_csv (WeightTracker.frame data))
  = map (fun p => WeightTracker.entry_cells (fst p) ++ [float_cell (snd p)])
      (combine data (WeightTracker.Trend data)) /\
  List.length (lines (to_csv (WeightTracker.frame data))) = List.length data /\
  csv_dates (to_csv (WeightTracker.frame data)) = map WeightTracker.Date data.
Proof.
  assert (Hlen : List.length (WeightTracker.Trend data) = List.length data).
  { unfold WeightTracker.Trend, WeightTracker.Weight_column.
    rewrite <- (map_map WeightTracker.Weight Some).
    destruct (RollingFacts.rolling_mean_present 3 (map WeightTracker.Weight data))
      as (H & _); [lia |].
    now rewrite length_map in H. }
  assert (Hlines : lines (to_csv (WeightTracker.frame data))
                   = map (fun p => WeightTracker.entry_cells (fst p) ++ [float_cell (snd p)])
                       (combine data (WeightTracker.Trend data))).
  { cbn [to_csv WeightTracker.frame assign lines values].
    rewrite zip_append_combine by (rewrite !length_map; exact Hlen).
    revert Hlen. generalize (WeightTracker.Trend data). intros tr.
    revert tr. induction data as [| e data IH]; intros [| t tr] H; simpl in *;
      try reflexivity; try discriminate.
    f_equal. apply IH. lia. }
  split; [reflexivity |]. split; [exact Hlines |]. split.
  - rewrite Hlines, length_map, length_combine, Hlen. lia.
  - unfold csv_dates, csv_column. rewrite Hlines.
    change (index_of "Date" (header (to_csv (WeightTracker.frame data)))) with (Some 0%nat).
    cbv iota. rewrite map_map. cbn [WeightTracker.entry_cells fst List.app nth].
    clear Hlines. revert Hlen. generalize (WeightTracker.Trend data). intros tr.
    revert tr. induction data as [| e data IH]; intros [| t tr] H; simpl in *;
      try reflexivity; try discriminate.
    f_equal. apply IH. lia.
Qed.

End ExportFacts.

(* ================================================================= *)
(** ** The CSV export *)



Ltac dated_row :=
  lazymatch goal with
  | |- exists d, dated ?s d =>
      let r := eval vm_compute in (PyDate.fromisoformat s) in
      lazymatch r with
      | Some ?d => exists d; split; reflexivity
      end
  end.


Example full_file_export_header :
  match HealthTracker.render_weights sample_weight_rows with
  | Ok (HealthTracker.weight_dashboard c) => Pandas.header_line (HealthTracker.csv c)
  | _ => ""
  end = "id,Date,Weight,Body Fat %,Notes".
Proof. reflexivity. Qed.

Example four_entries_export_header :
  match WeightTracker.render four_entries with
  | WeightTracker.dashboard c => Pandas.header_line (WeightTracker.csv c)
  | _ => ""
  end = "Date,Weight,Body Fat %,Notes,Trend".
Proof. reflexivity. Qed.

(* ================================================================= *)
(** ** Validation of the blood-pressure form *)

Definition low_diastolic_bp_form : HealthTracker.bp_form :=
  HealthTracker.mk_bp_form None (Some 118%Z) None (Some "cuff slipped") true.

(** X1. When the blood-pressure form is submitted with a systolic or a
    diastolic value that is not positive, no reading is stored and the page
    shows the warning; with both positive exactly one reading with that
    date, systolic and diastolic value is added, under an id above every
    stored id.  The weights are untouched either way. *)
Theorem append_bp_validation
    (today : PyDate.date) (f : HealthTracker.bp_form) (file : Sqlite.database) :
  HealthTracker.bf_add_bp_button f = true ->
  ((Streamlit.number_input 0 (HealthTracker.bf_systolic f) <= 0 \/
    Streamlit.number_input 0 (HealthTracker.bf_diastolic f) <= 0)%Z ->
     Sqlite.stored_bp (fst (HealthTracker.run today (HealthTracker.Blood_Pressure_Tracker f) file))
     = Sqlite.stored_bp file /\
     Sqlite.count_bp (fst (HealthTracker.run today (HealthTracker.Blood_Pressure_Tracker f) file))
     = Sqlite.count_bp file /\
     HealthTracker.page_alert
       (snd (HealthTracker.run today (HealthTracker.Blood_Pressure_Tracker f) file))
     = Some (Streamlit.warning HealthTracker.invalid_bp)) /\
  ((0 < Streamlit.number_input 0 (HealthTracker.bf_systolic f) /\
    0 < Streamlit.number_input 0 (HealthTracker.bf_diastolic f))%Z ->
     (exists r,
        Sqlite.stored_bp
          (fst (HealthTracker.run today (HealthTracker.Blood_Pressure_Tracker f) file))
        = Sqlite.stored_bp file ++ [r] /\
        Sqlite.b_date r = PyDate.isoformat (Streamlit.date_input today (HealthTracker.bf_date f)) /\
        Sqlite.b_systolic r = Streamlit.number_input 0%Z (HealthTracker.bf_systolic f) /\
        Sqlite.b_diastolic r = Streamlit.number_input 0%Z (HealthTracker.bf_diastolic f) /\
        Forall (fun r' => (Sqlite.b_id r' < Sqlite.b_id r)%Z) (Sqlite.stored_bp file)) /\
     Sqlite.count_bp (fst (HealthTracker.run today (HealthTracker.Blood_Pressure_Tracker f) file))
     = S (Sqlite.count_bp file) /\
     HealthTracker.page_alert
       (snd (HealthTracker.run today (HealthTracker.Blood_Pressure_Tracker f) file))
     = Some Streamlit.success) /\
  Sqlite.stored_weights (fst (HealthTracker.run today (HealthTracker.Blood_Pressure_Tracker f) file))
  = Sqlite.stored_weights file.
Proof.
  intros Hf.
  destruct (HealthTrackerSpec.bp_accepted f) eqn:E.
  - destruct (HealthTrackerFacts.run_bp_accepted today f file E) as (Hb & Hw & Ha).
    unfold HealthTrackerSpec.bp_accepted in E.
    rewrite !andb_true_iff, !Z.ltb_lt in E. destruct E as [[_ Hs] Hd].
    split; [intros [H | H]; lia |]. split; [| exact Hw].
    intros _. rewrite Ha, !HealthTrackerFacts.count_bp_length, Hb. repeat split.
    + eexists. split; [reflexivity |]. repeat split.
      apply ProducedFacts.next_bp_id_above.
    + rewrite length_app. simpl. lia.
  - destruct (HealthTrackerFacts.run_bp_rejected today f file E) as (Hfile & Ha).
    unfold HealthTrackerSpec.bp_accepted in E. rewrite Hf in E. cbn [andb] in E.
    rewrite andb_false_iff, !Z.ltb_ge in E.
    rewrite Hfile, Ha, Hf, SqliteFacts.stored_bp_init_db, SqliteFacts.stored_weights_init_db,
      !HealthTrackerFacts.count_bp_length, SqliteFacts.stored_bp_init_db.
    split; [auto |]. split; [| reflexivity].
    intros [Hs Hd]. lia.
Qed.

Lemma append_bp_validation_witness :
  Sqlite.stored_bp
    (fst (HealthTracker.run sample_today
            (HealthTracker.Blood_Pressure_Tracker low_diastolic_bp_form) full_file))
  = Sqlite.stored_bp full_file /\
  HealthTracker.page_alert
    (snd (HealthTracker.run sample_today
            (HealthTracker.Blood_Pressure_Tracker low_diastolic_bp_form) full_file))
  = Some (Streamlit.warning HealthTracker.invalid_bp).
Proof.
  destruct (append_bp_validation sample_today low_diastolic_bp_form full_file eq_refl)
    as (H & _ & _).
  destruct H as (Hb & _ & Ha).
  - right. cbn. discriminate.
  - exact (conj Hb Ha).
Defined.

(* ================================================================= *)
(** ** Initialising the database *)

(** X2. [init_db] creates the tables that are missing and leaves a table
    that exists as it is, rows and id counter: the stored records are the
    same after it, running it again changes nothing, and after it both
    loads succeed. *)
Theorem init_db_keeps_the_data (file : Sqlite.database) :
  Sqlite.stored_weights (Sqlite.init_db file) = Sqlite.stored_weights file /\
  Sqlite.stored_bp (Sqlite.init_db file) = Sqlite.stored_bp file /\
  (forall t, Sqlite.weights file = Some t -> Sqlite.weights (Sqlite.init_db file) = Some t) /\
  (forall t, Sqlite.blood_pressure file = Some t ->
             Sqlite.blood_pressure (Sqlite.init_db file) = Some t) /\
  Sqlite.init_db (Sqlite.init_db file) = Sqlite.init_db file /\
  (exists l, Sqlite.load_weights (Sqlite.init_db file) = Ok l /\
             List.length l = Sqlite.count_weights file) /\
  (exists l, Sqlite.load_bp (Sqlite.init_db file) = Ok l /\
             List.length l = Sqlite.count_bp file).
Proof.
  repeat apply conj.
  - apply SqliteFacts.stored_weights_init_db.
  - apply SqliteFacts.stored_bp_init_db.
  - intros t H. destruct file as [w b]. simpl in H. subst w. destruct b; reflexivity.
  - intros t H. destruct file as [w b]. simpl in H. subst b. destruct w; reflexivity.
  - apply SqliteFacts.init_db_idempotent.
  - eexists. split; [apply SqliteFacts.load_weights_init_db |].
    now rewrite stable_sort_length, HealthTrackerFacts.count_weights_length.
  - eexists. split; [apply SqliteFacts.load_bp_init_db |].
    now rewrite stable_sort_length, HealthTrackerFacts.count_bp_length.
Qed.

(* ================================================================= *)
(** ** The store only grows *)

(** X3. A run of the health tracker never removes or changes a stored
    record: each table after the run is the table before it followed by what
    the run added, which is at most one record in all, and none in the table
    of the section that was not selected. *)
Theorem run_is_append_only
    (today : PyDate.date) (i : HealthTracker.interaction) (file : Sqlite.database) :
  exists new_weights new_bp,
    Sqlite.stored_weights (fst (HealthTracker.run today i file))
    = Sqlite.stored_weights file ++ new_weights /\
    Sqlite.stored_bp (fst (HealthTracker.run today i file))
    = Sqlite.stored_bp file ++ new_bp /\
    (List.length new_weights + List.length new_bp <= 1)%nat /\
    match i with
    | HealthTracker.Weight_Tracker f =>
        new_bp = [] /\
        (new_weights <> [] <->
         HealthTracker.wf_add_button f = true /\
         0 < Streamlit.number_input 0 (HealthTracker.wf_weight f))
    | HealthTracker.Blood_Pressure_Tracker f =>
        new_weights = [] /\
        (new_bp <> [] <->
         HealthTracker.bf_add_bp_button f = true /\
         (0 < Streamlit.number_input 0 (HealthTracker.bf_systolic f))%Z /\
         (0 < Streamlit.number_input 0 (HealthTracker.bf_diastolic f))%Z)
    end.
Proof.
  destruct i as [f | f].
  - destruct (HealthTrackerSpec.weight_accepted f) eqn:E.
    + destruct (HealthTrackerFacts.run_weight_accepted today f file E) as (Hw & Hb & _).
      exists [HealthTrackerSpec.weight_row_of_form today f
                (HealthTrackerSpec.next_weight_id file)], [].
      rewrite Hw, Hb, app_nil_r.
      split; [reflexivity |]. split; [reflexivity |]. split; [simpl; lia |].
      split; [reflexivity |].
      unfold HealthTrackerSpec.weight_accepted in E.
      rewrite andb_true_iff, Qltb_lt in E. split; [intros _; exact E | discriminate].
    + destruct (HealthTrackerFacts.run_weight_rejected today f file E) as (Hfile & _).
      exists [], []. rewrite Hfile, !app_nil_r.
      split; [apply SqliteFacts.stored_weights_init_db |].
      split; [apply SqliteFacts.stored_bp_init_db |]. split; [simpl; lia |].
      split; [reflexivity |].
      unfold HealthTrackerSpec.weight_accepted in E.
      split; [congruence |]. intros [Hb Hw]. apply Qltb_lt in Hw.
      rewrite Hb, Hw in E. discriminate.
  - destruct (HealthTrackerSpec.bp_accepted f) eqn:E.
    + destruct (HealthTrackerFacts.run_bp_accepted today f file E) as (Hb & Hw & _).
      exists [], [HealthTrackerSpec.bp_row_of_form today f (HealthTrackerSpec.next_bp_id file)].
      rewrite Hw, Hb, app_nil_r.
      split; [reflexivity |]. split; [reflexivity |]. split; [simpl; lia |].
      split; [reflexivity |].
      unfold HealthTrackerSpec.bp_accepted in E.
      rewrite !andb_true_iff, !Z.ltb_lt in E.
      split; [intros _; tauto | discriminate].
    + destruct (HealthTrackerFacts.run_bp_rejected today f file E) as (Hfile & _).
      exists [], []. rewrite Hfile, !app_nil_r.
      split; [apply SqliteFacts.stored_weights_init_db |].
      split; [apply SqliteFacts.stored_bp_init_db |]. split; [simpl; lia |].
      split; [reflexivity |].
      unfold HealthTrackerSpec.bp_accepted in E.
      split; [congruence |]. intros (Hb & Hs & Hd).
      apply Z.ltb_lt in Hs, Hd. rewrite Hb, Hs, Hd in E. discriminate.
Qed.

(* ================================================================= *)
(** ** Dates as ISO texts *)

Lemma zfill_length (w : nat) (n : Z) : String.length (PyDate.zfill w n) = w.
Proof. induction w as [| w IH]; simpl; congruence. Qed.

Lemma string_length_append (s t : string) :
  String.length (s ++ t)%string = (String.length s + String.length t)%nat.
Proof. induction s as [| c s IH]; simpl; congruence. Qed.



(* ================================================================= *)
(** ** Ids count from one *)

Module IdFacts.
Import Sqlite HealthTracker HealthTrackerSpec.

(** The table as the next statement finds it once [init_db] has run. *)
Definition opened {R : Type} (t : option (table R)) : table R :=
  match t with
  | Some t => t
  | None => mk_table [] 0
  end.

(** Rowids 1, 2, ..., n in this order, and the counter at n. *)
Definition counted {R : Type} `{Row R} (t : table R) : Prop :=
  map rowid (rows t) = map Z.of_nat (List.seq 1 (List.length (rows t))) /\
  seq t = Z.of_nat (List.length (rows t)).

Lemma run_weight_file (today : PyDate.date) (f : weight_form) (file : database) :
  fst (run today (Weight_Tracker f) file)
  = if weight_accepted f
    then mk_database
           (Some (insert_row (weight_row_of_form today f) (opened (weights file))))
           (Some (opened (blood_pressure file)))
    else mk_database (Some (opened (weights file))) (Some (opened (blood_pressure file))).
Proof.
  unfold run, weight_section, submit_weight, weight_accepted.
  destruct (wf_add_button f && Qltb 0 (Streamlit.number_input 0 (wf_weight f))) eqn:E.
  - destruct file as [[t |] [u |]]; reflexivity.
  - destruct (wf_add_button f), file as [[t |] [u |]]; reflexivity.
Qed.

Lemma run_bp_file (today : PyDate.date) (f : bp_form) (file : database) :
  fst (run today (Blood_Pressure_Tracker f) file)
  = if bp_accepted f
    then mk_database
           (Some (opened (weights file)))
           (Some (insert_row (bp_row_of_form today f) (opened (blood_pressure file))))
    else mk_database (Some (opened (weights file))) (Some (opened (blood_pressure file))).
Proof.
  unfold run, bp_section, submit_bp, bp_accepted.
  destruct (bf_add_bp_button f && (0 <? Streamlit.number_input 0 (bf_systolic f))%Z
            && (0 <? Streamlit.number_input 0 (bf_diastolic f))%Z) eqn:E.
  - destruct file as [[t |] [u |]]; reflexivity.
  - destruct (bf_add_bp_button f), file as [[t |] [u |]]; reflexivity.
Qed.

Lemma max_rowid_counted {R : Type} `{Row R} (l : list R) (k : nat) :
  (1 <= k)%nat ->
  map rowid l = map Z.of_nat (List.seq k (List.length l)) ->
  (max_rowid l <= Z.of_nat (k + List.length l) - 1)%Z.
Proof.
  revert k. induction l as [| r l IH]; intros k Hk E.
  - cbn. lia.
  - cbn [List.length List.seq map] in E. injection E as Er El.
    specialize (IH (S k) ltac:(lia) El).
    change (max_rowid (r :: l)) with (Z.max (rowid r) (max_rowid l)).
    cbn [List.length]. lia.
Qed.

Lemma counted_empty {R : Type} `{Row R} : counted (mk_table (@nil R) 0).
Proof. split; reflexivity. Qed.

Lemma counted_insert_row {R : Type} `{Row R} (mk : Z -> R) (t : table R) :
  (forall id, rowid (mk id) = id) -> counted t -> counted (insert_row mk t).
Proof.
  intros Hmk [Hids Hseq].
  assert (Hnext : next_rowid t = Z.of_nat (S (List.length (rows t)))).
  { unfold next_rowid. pose proof (max_rowid_counted (rows t) 1 ltac:(lia) Hids). lia. }
  unfold insert_row. rewrite Hnext. split; cbn [rows seq].
  - rewrite map_app, length_app, Hids. cbn [List.length map].
    rewrite Nat.add_1_r, seq_S, map_app, Hmk. reflexivity.
  - rewrite length_app. cbn [List.length]. f_equal. lia.
Qed.

Lemma counted_opened {R : Type} `{Row R} (t : option (table R)) :
  (forall t', t = Some t' -> counted t') -> counted (opened t).
Proof. destruct t as [t |]; simpl; intros Ht; [now apply Ht | apply counted_empty]. Qed.

Lemma produced_counted (file : database) :
  produced file ->
  (forall t, weights file = Some t -> counted t) /\
  (forall t, blood_pressure file = Some t -> counted t).
Proof.
  induction 1 as [| today i file Hfile [IHw IHb]].
  - split; intros t Ht; discriminate.
  - pose proof (counted_opened _ IHw) as Hw. pose proof (counted_opened _ IHb) as Hb.
    destruct i as [f | f].
    + rewrite run_weight_file. destruct (weight_accepted f); cbn [weights blood_pressure];
        split; intros t [= <-]; auto.
      now apply counted_insert_row.
    + rewrite run_bp_file. destruct (bp_accepted f); cbn [weights blood_pressure];
        split; intros t [= <-]; auto.
      now apply counted_insert_row.
Qed.

End IdFacts.

(** X5. In every store the program produced from a fresh file the ids of
    each table are 1, 2, ..., n in the order of insertion, n being the number
    of its records: the k-th record entered has id k, and no two records
    share an id. *)
Theorem produced_ids_count_from_one (file : Sqlite.database) :
  HealthTracker.produced file ->
  map Sqlite.w_id (Sqlite.stored_weights file)
  = map Z.of_nat (List.seq 1 (Sqlite.count_weights file)) /\
  map Sqlite.b_id (Sqlite.stored_bp file)
  = map Z.of_nat (List.seq 1 (Sqlite.count_bp file)) /\
  NoDup (map Sqlite.w_id (Sqlite.stored_weights file)) /\
  NoDup (map Sqlite.b_id (Sqlite.stored_bp file)).
Proof.
  intros Hfile. destruct (IdFacts.produced_counted file Hfile) as [Hw Hb].
  assert (Ew : map Sqlite.w_id (Sqlite.stored_weights file)
               = map Z.of_nat (List.seq 1 (Sqlite.count_weights file))).
  { destruct file as [[t |] u]; [| reflexivity]. exact (proj1 (Hw t eq_refl)). }
  assert (Eb : map Sqlite.b_id (Sqlite.stored_bp file)
               = map Z.of_nat (List.seq 1 (Sqlite.count_bp file))).
  { destruct file as [w [t |]]; [| reflexivity]. exact (proj1 (Hb t eq_refl)). }
  split; [exact Ew |]. split; [exact Eb |].
  rewrite Ew, Eb.
  split; (apply Finite.Injective_map_NoDup; [intros x y; apply Nat2Z.inj | apply seq_NoDup]).
Qed.

Lemma produced_ids_count_from_one_witness :
  map Sqlite.w_id (Sqlite.stored_weights sample_file)
  = map Z.of_nat (List.seq 1 (Sqlite.count_weights sample_file)) /\
  map Sqlite.b_id (Sqlite.stored_bp sample_file)
  = map Z.of_nat (List.seq 1 (Sqlite.count_bp sample_file)).
Proof.
  destruct (produced_ids_count_from_one sample_file) as (Hw & Hb & _).
  - apply HealthTracker.produced_run, HealthTracker.produced_run, HealthTracker.produced_fresh.
  - exact (conj Hw Hb).
Defined.

(* ================================================================= *)
(** ** What a page shows *)

(** The date of the form of the selected section. *)
Definition form_date (today : PyDate.date) (i : HealthTracker.interaction) : PyDate.date :=
  match i with
  | HealthTracker.Weight_Tracker f => Streamlit.date_input today (HealthTracker.wf_date f)
  | HealthTracker.Blood_Pressure_Tracker f => Streamlit.date_input today (HealthTracker.bf_date f)
  end.

Module RenderFacts.
Import Sqlite HealthTracker HealthTrackerSpec.

Lemma run_weight_page (today : PyDate.date) (f : weight_form) (file : database) :
  exists a,
    snd (run today (Weight_Tracker f) file)
    = weight_page
        (mk_view a (bind (load_weights (fst (run today (Weight_Tracker f) file)))
                      render_weights)).
Proof.
  unfold run, weight_section, submit_weight.
  destruct (wf_add_button f && Qltb 0 (Streamlit.number_input 0 (wf_weight f))) eqn:E.
  - destruct file as [[t |] [u |]]; eexists; reflexivity.
  - destruct (wf_add_button f), file as [[t |] [u |]]; eexists; reflexivity.
Qed.

Lemma run_bp_page (today : PyDate.date) (f : bp_form) (file : database) :
  exists a,
    snd (run today (Blood_Pressure_Tracker f) file)
    = bp_page
        (mk_view a (bind (load_bp (fst (run today (Blood_Pressure_Tracker f) file)))
                      render_bp)).
Proof.
  unfold run, bp_section, submit_bp.
  destruct (bf_add_bp_button f && (0 <? Streamlit.number_input 0 (bf_systolic f))%Z
            && (0 <? Streamlit.number_input 0 (bf_diastolic f))%Z) eqn:E.
  - destruct file as [[t |] [u |]]; eexists; reflexivity.
  - destruct (bf_add_bp_button f), file as [[t |] [u |]]; eexists; reflexivity.
Qed.

Lemma load_weights_run (today : PyDate.date) (i : interaction) (file : database) :
  load_weights (fst (run today i file))
  = Ok (stable_sort date_leb (stored_weights (fst (run today i file)))).
Proof. destruct (run_initialised today i file) as (t & u & ->). reflexivity. Qed.

Lemma load_bp_run (today : PyDate.date) (i : interaction) (file : database) :
  load_bp (fst (run today i file))
  = Ok (stable_sort date_leb (stored_bp (fst (run today i file)))).
Proof. destruct (run_initialised today i file) as (t & u & ->). reflexivity. Qed.

Lemma run_keeps_dated (today : PyDate.date) (i : interaction) (file : database) :
  dated_rows (stored_weights file) -> dated_rows (stored_bp file) ->
  PyDate.date_ok (form_date today i) = true ->
  dated_rows (stored_weights (fst (run today i file))) /\
  dated_rows (stored_bp (fst (run today i file))).
Proof.
  intros Hw Hb Hd. destruct i as [f | f]; cbn [form_date] in Hd.
  - destruct (weight_accepted f) eqn:E.
    + destruct (HealthTrackerFacts.run_weight_accepted today f file E) as (-> & -> & _).
      split; [| exact Hb]. apply Forall_app. split; [exact Hw |].
      repeat constructor. eexists. split; [exact Hd | reflexivity].
    + destruct (HealthTrackerFacts.run_weight_rejected today f file E) as (-> & _).
      now rewrite SqliteFacts.stored_weights_init_db, SqliteFacts.stored_bp_init_db.
  - destruct (bp_accepted f) eqn:E.
    + destruct (HealthTrackerFacts.run_bp_accepted today f file E) as (-> & -> & _).
      split; [exact Hw |]. apply Forall_app. split; [exact Hb |].
      repeat constructor. eexists. split; [exact Hd | reflexivity].
    + destruct (HealthTrackerFacts.run_bp_rejected today f file E) as (-> & _).
      now rewrite SqliteFacts.stored_weights_init_db, SqliteFacts.stored_bp_init_db.
Qed.

Lemma render_weights_dated (l : list weight_row) :
  dated_rows l ->
  match l with
  | [] => render_weights (stable_sort date_leb l) = Ok (weight_no_data (Streamlit.info no_weights))
  | _ :: _ =>
      exists c, render_weights (stable_sort date_leb l) = Ok (weight_dashboard c) /\
                List.length (Pandas.lines (csv c)) = List.length l
  end.
Proof.
  intros Hl. destruct l as [| r l]; [reflexivity |].
  set (sorted := stable_sort date_leb (r :: l)).
  assert (Hs : dated_rows sorted) by now apply Forall_stable_sort.
  destruct (ExportFacts.weight_records_of_dated sorted Hs) as (data & Hdata & HF).
  assert (Hlen : List.length data = List.length (r :: l)).
  { rewrite (ExportFacts.Forall2_length_eq _ _ _ HF). apply stable_sort_length. }
  assert (Hne : data <> []) by (intros ->; discriminate).
  eexists. split; [exact (PageFacts.render_weights_dashboard sorted data Hdata Hne) |].
  cbn [csv].
  change (Pandas.lines (Pandas.to_csv (weight_frame data))) with (map weight_cells data).
  now rewrite length_map.
Qed.

Lemma render_bp_dated (l : list bp_row) :
  dated_rows l ->
  match l with
  | [] => render_bp (stable_sort date_leb l) = Ok (bp_no_data (Streamlit.info no_bp))
  | _ :: _ =>
      exists c, render_bp (stable_sort date_leb l) = Ok (bp_dashboard c) /\
                List.length (Pandas.lines (csv_bp c)) = List.length l
  end.
Proof.
  intros Hl. destruct l as [| r l]; [reflexivity |].
  set (sorted := stable_sort date_leb (r :: l)).
  assert (Hs : dated_rows sorted) by now apply Forall_stable_sort.
  destruct (ExportFacts.bp_records_of_dated sorted Hs) as (data & Hdata & HF).
  assert (Hlen : List.length data = List.length (r :: l)).
  { rewrite (ExportFacts.Forall2_length_eq _ _ _ HF). apply stable_sort_length. }
  assert (Hne : data <> []) by (intros ->; discriminate).
  eexists. split; [exact (PageFacts.render_bp_dashboard sorted data Hdata Hne) |].
  cbn [csv_bp].
  change (Pandas.lines (Pandas.to_csv (bp_frame data))) with (map bp_cells data).
  now rewrite length_map.
Qed.

End RenderFacts.



(* ================================================================= *)
(** ** A run of the prototype *)

Lemma rolling_length (data : list WeightTracker.entry) :
  List.length (WeightTracker.Trend data) = List.length data.
Proof.
  unfold WeightTracker.Trend, WeightTracker.Weight_column.
  rewrite <- (map_map WeightTracker.Weight Some).
  destruct (RollingFacts.rolling_mean_present 3 (map WeightTracker.Weight data))
    as (H & _); [lia |].
  now rewrite length_map in H.
Qed.


(** X7. Within a session the prototype's log only grows: after a run it is
    the log before followed by at most one entry, added exactly when the
    button was pressed with a positive weight.  The page shows the no-data
    message when the log is empty after the run, and otherwise the
    dashboard, with one trend value and one export line per entry. *)
Theorem prototype_run_grows_and_shows_the_log
    (today : PyDate.date) (f : WeightTracker.form) (ss : WeightTracker.session_state) :
  exists new,
    fst (WeightTracker.run today f ss) = Some (WeightTracker.setup ss ++ new) /\
    (List.length new <= 1)%nat /\
    (new <> [] <->
     WeightTracker.f_add_button f = true /\
     0 < Streamlit.number_input 0 (WeightTracker.f_weight f)) /\
    match WeightTracker.setup ss ++ new with
    | [] => snd (snd (WeightTracker.run today f ss))
            = WeightTracker.no_data (Streamlit.info WeightTracker.no_weights)
    | _ :: _ =>
        exists c,
          snd (snd (WeightTracker.run today f ss)) = WeightTracker.dashboard c /\
          List.length (WeightTracker.trend c) = List.length (WeightTracker.setup ss ++ new) /\
          List.length (Pandas.lines (WeightTracker.csv c))
          = List.length (WeightTracker.setup ss ++ new)
    end.
Proof.
  assert (Hshow : forall log,
             match log with
             | [] => WeightTracker.render (WeightTracker.sort_values_Date log)
                     = WeightTracker.no_data (Streamlit.info WeightTracker.no_weights)
             | _ :: _ =>
                 exists c,
                   WeightTracker.render (WeightTracker.sort_values_Date log)
                   = WeightTracker.dashboard c /\
                   List.length (WeightTracker.trend c) = List.length log /\
                   List.length (Pandas.lines (WeightTracker.csv c)) = List.length log
             end).
  { intros [| e log]; [reflexivity |].
    set (data := WeightTracker.sort_values_Date (e :: log)).
    assert (Hlen : List.length data = List.length (e :: log)) by apply stable_sort_length.
    destruct (ExportFacts.entry_csv data) as (_ & _ & Hl & _).
    pose proof (rolling_length data) as Ht.
    destruct data as [| d data'] eqn:E; [discriminate |].
    eexists. split; [reflexivity |].
    cbn [WeightTracker.trend WeightTracker.csv]. rewrite Ht, Hl. auto. }
  destruct (WeightTrackerSpec.accepted f) eqn:E.
  - exists [WeightTrackerSpec.entry_of_form today f].
    assert (Hrun : WeightTracker.run today f ss
                   = (Some (WeightTracker.setup ss ++ [WeightTrackerSpec.entry_of_form today f]),
                      (Some Streamlit.success,
                       WeightTracker.render
                         (WeightTracker.sort_values_Date
                            (WeightTracker.setup ss
                             ++ [WeightTrackerSpec.entry_of_form today f]))))).
    { unfold WeightTracker.run, WeightTracker.submit.
      unfold WeightTrackerSpec.accepted in E. now rewrite E. }
    rewrite Hrun. cbn [fst snd]. split; [reflexivity |]. split; [simpl; lia |].
    unfold WeightTrackerSpec.accepted in E. rewrite andb_true_iff, Qltb_lt in E.
    split; [split; [intros _; exact E | discriminate] |].
    specialize (Hshow (WeightTracker.setup ss ++ [WeightTrackerSpec.entry_of_form today f])).
    exact Hshow.
  - exists [].
    assert (Hrun : fst (WeightTracker.run today f ss) = Some (WeightTracker.setup ss) /\
                   snd (snd (WeightTracker.run today f ss))
                   = WeightTracker.render (WeightTracker.sort_values_Date (WeightTracker.setup ss))).
    { unfold WeightTracker.run, WeightTracker.submit.
      unfold WeightTrackerSpec.accepted in E. rewrite E.
      destruct (WeightTracker.f_add_button f); split; reflexivity. }
    destruct Hrun as [-> ->]. rewrite app_nil_r.
    split; [reflexivity |]. split; [simpl; lia |].
    unfold WeightTrackerSpec.accepted in E.
    split; [split; [congruence | intros [Hb Hw]; apply Qltb_lt in Hw;
                                 rewrite Hb, Hw in E; discriminate] |].
    exact (Hshow (WeightTracker.setup ss)).
Qed.

(* ================================================================= *)
(** ** Axis ranges and what they show *)

Lemma min_skips_missing {A : Type} (ltb : A -> A -> bool) (s : list (option A)) :
  forall acc,
    fold_left (Pandas.pick_min ltb) s acc
    = fold_left (Pandas.pick_min ltb) (map Some (PandasOps.dropna s)) acc.
Proof.
  induction s as [| [v |] s IH]; intros acc; simpl.
  - reflexivity.
  - apply IH.
  - rewrite <- IH. now destruct acc.
Qed.

Lemma max_skips_missing {A : Type} (ltb : A -> A -> bool) (s : list (option A)) :
  forall acc,
    fold_left (Pandas.pick_max ltb) s acc
    = fold_left (Pandas.pick_max ltb) (map Some (PandasOps.dropna s)) acc.
Proof.
  induction s as [| [v |] s IH]; intros acc; simpl.
  - reflexivity.
  - apply IH.
  - rewrite <- IH. now destruct acc.
Qed.

Lemma In_dropna {A : Type} (s : list (option A)) (x : A) :
  In x (PandasOps.dropna s) <-> In (Some x) s.
Proof.
  induction s as [| [v |] s IH]; simpl.
  - tauto.
  - rewrite IH. split; intros [H | H]; auto; left; congruence.
  - rewrite IH. split; [auto | intros [H | H]; [discriminate | exact H]].
Qed.

Definition mixed_bodyfat_data : list HealthTracker.weight_record :=
  [HealthTracker.mk_weight_record 1 (PyDate.mkdate 2024 1 1) 70 None (Some "");
   HealthTracker.mk_weight_record 2 (PyDate.mkdate 2024 1 2) 71 (Some 15) (Some "");
   HealthTracker.mk_weight_record 3 (PyDate.mkdate 2024 1 3) 72 (Some 18) (Some "")].

(** X8. When at least one entry has a body-fat value, the body-fat axis is
    computed from the entries that have one: it runs from
    min(least value, target minimum 11) - 5 to the greatest value + 5, so
    every body-fat point lies at least 5 inside it; entries without a value
    do not enter. *)
Theorem bodyfat_axis_ignores_missing (data : list HealthTracker.weight_record) :
  (exists r, In r data /\ HealthTracker.Body_Fat r <> None) ->
  exists m M lo hi,
    In (Some m) (map HealthTracker.Body_Fat data) /\
    In (Some M) (map HealthTracker.Body_Fat data) /\
    HealthTracker.bodyfat_yaxis_range HealthTracker.minTargetBodyFat
      HealthTracker.maxTargetBodyFat data = (Some lo, Some hi) /\
    lo == Qmin m 11 - 5 /\
    hi == M + 5 /\
    (forall r x, In r data -> HealthTracker.Body_Fat r = Some x ->
                 m <= x /\ x <= M /\ lo + 5 <= x /\ x + 5 <= hi).
Proof.
  intros (r0 & Hr0 & Hbf0).
  set (col := HealthTracker.Body_Fat_column data).
  assert (Hne : PandasOps.dropna col <> []).
  { destruct (HealthTracker.Body_Fat r0) as [x0 |] eqn:E0; [| congruence].
    assert (Hin : In x0 (PandasOps.dropna col)).
    { apply In_dropna. rewrite <- E0. unfold col, HealthTracker.Body_Fat_column.
      now apply in_map. }
    intros Hnil. rewrite Hnil in Hin. destruct Hin. }
  destruct (min_present Qltb Qle PageFacts.Qltb_le PageFacts.Qltb_false_le
              Qle_refl Qle_trans _ Hne) as (m & Hmin & Hmin_in & Hmin_le).
  destruct (max_present Qltb Qle PageFacts.Qltb_le PageFacts.Qltb_false_le
              Qle_refl Qle_trans _ Hne) as (M & Hmax & Hmax_in & Hmax_le).
  rewrite Forall_forall in Hmin_le, Hmax_le.
  unfold Pandas.min in Hmin. rewrite <- min_skips_missing in Hmin.
  unfold Pandas.max in Hmax. rewrite <- max_skips_missing in Hmax.
  fold (Pandas.min Qltb col) in Hmin. fold (Pandas.max Qltb col) in Hmax.
  apply In_dropna in Hmin_in, Hmax_in.
  exists m, M,
    ((if Qltb m HealthTracker.minTargetBodyFat then m else HealthTracker.minTargetBodyFat) - 5),
    (M + 5).
  split; [exact Hmin_in |]. split; [exact Hmax_in |].
  split.
  { unfold HealthTracker.bodyfat_yaxis_range, HealthTracker.minBodyFat,
      HealthTracker.maxBodyFat. fold col. rewrite Hmin, Hmax. cbn [nan_ltb].
    now destruct (Qltb m HealthTracker.minTargetBodyFat). }
  assert (Hlo : (if Qltb m HealthTracker.minTargetBodyFat then m
                 else HealthTracker.minTargetBodyFat) - 5 == Qmin m 11 - 5).
  { destruct (Qltb m HealthTracker.minTargetBodyFat) eqn:E.
    - rewrite Q.min_l; [reflexivity | now apply PageFacts.Qltb_le].
    - rewrite Q.min_r; [reflexivity | now apply PageFacts.Qltb_false_le]. }
  split; [exact Hlo |]. split; [reflexivity |].
  intros r x Hr Hx.
  assert (Hin : In x (PandasOps.dropna col)).
  { apply In_dropna. rewrite <- Hx. unfold col, HealthTracker.Body_Fat_column.
    now apply in_map. }
  pose proof (Hmin_le x Hin) as H1. pose proof (Hmax_le x Hin) as H2.
  split; [exact H1 |]. split; [exact H2 |]. split; [| lra].
  destruct (Qltb m HealthTracker.minTargetBodyFat) eqn:E; [lra |].
  apply PageFacts.Qltb_false_le in E. lra.
Qed.

Lemma bodyfat_axis_ignores_missing_witness :
  exists m M lo hi,
    In (Some m) (map HealthTracker.Body_Fat mixed_bodyfat_data) /\
    In (Some M) (map HealthTracker.Body_Fat mixed_bodyfat_data) /\
    HealthTracker.bodyfat_yaxis_range HealthTracker.minTargetBodyFat
      HealthTracker.maxTargetBodyFat mixed_bodyfat_data = (Some lo, Some hi) /\
    lo == Qmin m 11 - 5 /\
    hi == M + 5 /\
    (forall r x, In r mixed_bodyfat_data -> HealthTracker.Body_Fat r = Some x ->
                 m <= x /\ x <= M /\ lo + 5 <= x /\ x + 5 <= hi).
Proof.
  apply (bodyfat_axis_ignores_missing mixed_bodyfat_data).
  eexists. split; [right; left; reflexivity | discriminate].
Defined.

(** X9. For every weight sequence that is not empty, every weight lies at
    least 10 inside the axis range of the weight chart, and so does the lower
    side of the target line at 100; the target line is within the range
    exactly when some weight is 90 or more. *)
Theorem weight_chart_contains_every_point (data : list HealthTracker.weight_record) :
  data <> [] ->
  exists lo hi,
    HealthTracker.weight_yaxis_range HealthTracker.targetWeight data = (Some lo, Some hi) /\
    (forall r, In r data -> lo + 10 <= HealthTracker.Weight r /\
                            HealthTracker.Weight r + 10 <= hi) /\
    lo + 10 <= HealthTracker.targetWeight /\
    (HealthTracker.targetWeight <= hi <->
     exists r, In r data /\ 90 <= HealthTracker.Weight r).
Proof.
  intros Hne.
  pose proof (PageFacts.map_not_nil HealthTracker.Weight data Hne) as Hne'.
  destruct (min_present Qltb Qle PageFacts.Qltb_le PageFacts.Qltb_false_le
              Qle_refl Qle_trans _ Hne') as (m & Hmin & Hmin_in & Hmin_le).
  destruct (max_present Qltb Qle PageFacts.Qltb_le PageFacts.Qltb_false_le
              Qle_refl Qle_trans _ Hne') as (M & Hmax & Hmax_in & Hmax_le).
  rewrite Forall_forall in Hmin_le, Hmax_le.
  exists ((if Qltb m HealthTracker.targetWeight then m else HealthTracker.targetWeight) - 10),
    (M + 10).
  split.
  { unfold HealthTracker.weight_yaxis_range, HealthTracker.minWeight, HealthTracker.maxWeight.
    rewrite PageFacts.Weight_column_present, Hmin, Hmax. cbn [nan_ltb].
    now destruct (Qltb m HealthTracker.targetWeight). }
  unfold HealthTracker.targetWeight in *.
  split; [| split].
  - intros r Hr.
    pose proof (Hmin_le _ (in_map HealthTracker.Weight _ _ Hr)) as H1.
    pose proof (Hmax_le _ (in_map HealthTracker.Weight _ _ Hr)) as H2.
    split; [| lra].
    destruct (Qltb m 100) eqn:E; [lra |]. apply PageFacts.Qltb_false_le in E. lra.
  - destruct (Qltb m 100) eqn:E; [| lra]. apply PageFacts.Qltb_le in E. lra.
  - split.
    + intros H. apply in_map_iff in Hmax_in. destruct Hmax_in as (r & Er & Hr).
      exists r. split; [exact Hr |]. rewrite Er. lra.
    + intros (r & Hr & H90).
      pose proof (Hmax_le _ (in_map HealthTracker.Weight _ _ Hr)) as H2. lra.
Qed.

Lemma weight_chart_contains_every_point_witness :
  exists lo hi,
    HealthTracker.weight_yaxis_range HealthTracker.targetWeight no_bodyfat_data
    = (Some lo, Some hi) /\
    (forall r, In r no_bodyfat_data -> lo + 10 <= HealthTracker.Weight r /\
                                       HealthTracker.Weight r + 10 <= hi) /\
    lo + 10 <= HealthTracker.targetWeight /\
    (HealthTracker.targetWeight <= hi <->
     exists r, In r no_bodyfat_data /\ 90 <= HealthTracker.Weight r).
Proof.
  apply (weight_chart_contains_every_point no_bodyfat_data). discriminate.
Defined.



(* ================================================================= *)
(** ** Summary statistics *)

Module StatsFacts.
Import Pandas PandasOps.

Lemma dropna_present {A : Type} (xs : list A) : dropna (map Some xs) = xs.
Proof. induction xs; simpl; congruence. Qed.

Lemma sum_from (xs : list Q) : forall acc, fold_left Qplus xs acc == acc + sum xs.
Proof.
  unfold sum. induction xs as [| x xs IH]; intros acc; simpl.
  - ring.
  - rewrite IH, (IH (0 + x)). ring.
Qed.

Lemma sum_cons (x : Q) (xs : list Q) : sum (x :: xs) == x + sum xs.
Proof. unfold sum at 1. simpl. rewrite sum_from. ring. Qed.

Lemma sum_bounds (lo hi : Q) (xs : list Q) :
  Forall (fun x => lo <= x <= hi) xs ->
  inject_Z (Z.of_nat (List.length xs)) * lo <= sum xs /\
  sum xs <= inject_Z (Z.of_nat (List.length xs)) * hi.
Proof.
  induction 1 as [| x xs [Hlo Hhi] Hxs [IHlo IHhi]].
  - unfold sum. simpl. split; rewrite Qmult_0_l; apply Qle_refl.
  - rewrite sum_cons. cbn [List.length]. rewrite Nat2Z.inj_succ, <- Z.add_1_r, inject_Z_plus.
    change (inject_Z 1) with 1. split; lra.
Qed.

(** The mean of a column without missing values that is not empty lies
    between any two bounds of its values. *)
Lemma mean_between (xs : list Q) :
  xs <> [] ->
  exists a, mean (map Some xs) = Some a /\
            forall lo hi, Forall (fun x => lo <= x <= hi) xs -> lo <= a <= hi.
Proof.
  intros Hne. unfold mean. rewrite dropna_present.
  destruct xs as [| x xs]; [congruence |].
  eexists. split; [reflexivity |]. intros lo hi Hall.
  destruct (sum_bounds lo hi (x :: xs) Hall) as [Hlo Hhi].
  assert (Hn : 0 < inject_Z (Z.of_nat (List.length (x :: xs)))).
  { change 0 with (inject_Z 0). rewrite <- Zlt_Qlt. cbn [List.length]. lia. }
  split.
  - apply Qle_shift_div_l; [exact Hn |]. rewrite Qmult_comm. exact Hlo.
  - apply Qle_shift_div_r; [exact Hn |]. rewrite Qmult_comm. exact Hhi.
Qed.

Lemma summary_stats_present (ws : list Q) :
  ws <> [] ->
  exists latest first a,
    iloc_last ws = Some latest /\ iloc_first ws = Some first /\
    mean (map Some ws) = Some a /\
    (forall lo hi, Forall (fun x => lo <= x <= hi) ws -> lo <= a <= hi) /\
    summary_stats ws
    = Some (mk_weight_stats latest (Some a)
              (if (1 <? List.length ws)%nat then Some (latest - first) else None)).
Proof.
  intros Hne. destruct (mean_between ws Hne) as (a & Ha & Hbounds).
  destruct ws as [| w ws]; [congruence |].
  destruct (nth_error (w :: ws) (List.length (w :: ws) - 1)) as [latest |] eqn:El.
  - exists latest, w, a. unfold summary_stats, iloc_last, iloc_first.
    rewrite El, Ha. cbn [nth_error]. auto.
  - apply nth_error_None in El. cbn [List.length] in El. lia.
Qed.

Lemma iloc_first_map {A B : Type} (f : A -> B) (l : list A) :
  iloc_first (map f l) = option_map f (iloc_first l).
Proof. unfold iloc_first. apply nth_error_map. Qed.

Lemma iloc_last_map {A B : Type} (f : A -> B) (l : list A) :
  iloc_last (map f l) = option_map f (iloc_last l).
Proof. unfold iloc_last. rewrite length_map. apply nth_error_map. Qed.

Lemma iloc_last_cons {A : Type} (x y : A) (l : list A) :
  iloc_last (x :: y :: l) = iloc_last (y :: l).
Proof.
  unfold iloc_last. cbn [List.length].
  replace (S (S (List.length l)) - 1)%nat with (S (S (List.length l) - 1)) by lia.
  reflexivity.
Qed.

(** The two ends of a sorted list that is not empty. *)
Lemma sorted_ends {A : Type} (R : A -> A -> Prop) (l : list A) :
  StronglySorted R l -> l <> [] ->
  exists first last,
    iloc_first l = Some first /\ iloc_last l = Some last /\
    In first l /\ In last l /\
    Forall (fun x => x = first \/ R first x) l /\
    Forall (fun x => x = last \/ R x last) l.
Proof.
  induction 1 as [| x l Hl IH Hx]; intros Hne; [congruence |].
  destruct l as [| y l].
  - exists x, x. repeat split; try (now left); repeat constructor; auto.
  - destruct IH as (first & last & _ & Hlast & _ & Hin & _ & Hall); [discriminate |].
    exists x, last. rewrite iloc_last_cons.
    split; [reflexivity |]. split; [exact Hlast |].
    split; [now left |]. split; [now right |]. split.
    + constructor; [now left |]. eapply Forall_impl; [| exact Hx]. auto.
    + constructor; [| exact Hall]. right.
      rewrite Forall_forall in Hx. now apply Hx.
Qed.

End StatsFacts.

Definition single_entry : list WeightTracker.entry :=
  [WeightTracker.mk_entry (PyDate.mkdate 2024 1 1) 70 None (Some "")].

(** X11. Over data that is not empty, the average weight each page shows
    lies between the least and the greatest weight, and the average systolic
    and diastolic values between the least and the greatest reading of
    their column. *)
Theorem averages_lie_between_the_extremes
    (data : list HealthTracker.weight_record) (data_bp : list HealthTracker.bp_record)
    (entries : list WeightTracker.entry) :
  data <> [] -> data_bp <> [] -> entries <> [] ->
  (exists s a,
     HealthTrackerDisplay.weight_summary data = Some s /\
     PandasOps.average s = Some a /\
     forall lo hi, (forall r, In r data -> lo <= HealthTracker.Weight r <= hi) ->
                   lo <= a <= hi) /\
  (exists sys dia,
     HealthTrackerDisplay.bp_summary data_bp = (Some sys, Some dia) /\
     (forall lo hi : Z,
        (forall r, In r data_bp -> (lo <= HealthTracker.Systolic r <= hi)%Z) ->
        inject_Z lo <= sys <= inject_Z hi) /\
     (forall lo hi : Z,
        (forall r, In r data_bp -> (lo <= HealthTracker.Diastolic r <= hi)%Z) ->
        inject_Z lo <= dia <= inject_Z hi)) /\
  (exists s a,
     WeightTrackerDisplay.summary entries = Some s /\
     PandasOps.average s = Some a /\
     forall lo hi, (forall e, In e entries -> lo <= WeightTracker.Weight e <= hi) ->
                   lo <= a <= hi).
Proof.
  intros Hd Hb He. repeat apply conj.
  - destruct (StatsFacts.summary_stats_present (map HealthTracker.Weight data))
      as (latest & first & a & _ & _ & _ & Hbounds & Hs);
      [now apply PageFacts.map_not_nil |].
    eexists. exists a. split; [exact Hs |]. split; [reflexivity |].
    intros lo hi H. apply Hbounds. rewrite Forall_map, Forall_forall. exact H.
  - unfold HealthTrackerDisplay.bp_summary.
    rewrite <- (map_map (fun r => inject_Z (HealthTracker.Systolic r)) Some).
    rewrite <- (map_map (fun r => inject_Z (HealthTracker.Diastolic r)) Some).
    destruct (StatsFacts.mean_between
                (map (fun r => inject_Z (HealthTracker.Systolic r)) data_bp))
      as (sys & Hsys & Hsb); [now apply PageFacts.map_not_nil |].
    destruct (StatsFacts.mean_between
                (map (fun r => inject_Z (HealthTracker.Diastolic r)) data_bp))
      as (dia & Hdia & Hdb); [now apply PageFacts.map_not_nil |].
    exists sys, dia. rewrite Hsys, Hdia. split; [reflexivity |]. split.
    + intros lo hi H. apply Hsb. rewrite Forall_map, Forall_forall.
      intros r Hr. rewrite <- !Zle_Qle. now apply H.
    + intros lo hi H. apply Hdb. rewrite Forall_map, Forall_forall.
      intros r Hr. rewrite <- !Zle_Qle. now apply H.
  - destruct (StatsFacts.summary_stats_present (map WeightTracker.Weight entries))
      as (latest & first & a & _ & _ & _ & Hbounds & Hs);
      [now apply PageFacts.map_not_nil |].
    eexists. exists a. split; [exact Hs |]. split; [reflexivity |].
    intros lo hi H. apply Hbounds. rewrite Forall_map, Forall_forall. exact H.
Qed.

Lemma averages_lie_between_the_extremes_witness :
  (exists s a,
     HealthTrackerDisplay.weight_summary sample_weight_data = Some s /\
     PandasOps.average s = Some a /\ 65 <= a <= 90) /\
  (exists sys dia,
     HealthTrackerDisplay.bp_summary sample_bp_data = (Some sys, Some dia) /\
     118 <= sys <= 131).
Proof.
  destruct (averages_lie_between_the_extremes sample_weight_data sample_bp_data single_entry)
    as ((s & a & Hs & Ha & Hb) & (sys & dia & Hbp & Hsys & _) & _);
    try discriminate.
  split.
  - exists s, a. split; [exact Hs |]. split; [exact Ha |].
    apply Hb. intros r [<- | [<- | [<- | []]]]; split; discriminate.
  - exists sys, dia. split; [exact Hbp |].
    apply (Hsys 118%Z 131%Z). intros r [<- | [<- | []]]; split; discriminate.
Defined.

Module SummaryFacts.
Import Sqlite HealthTracker PandasOps.

Lemma mapM_weight_record_of_weights (l : list weight_row) :
  forall data, mapM weight_record_of l = Ok data -> map Weight data = map w_weight l.
Proof.
  induction l as [| r l IH]; intros data H; cbn [mapM] in H.
  - injection H as <-. reflexivity.
  - unfold weight_record_of at 1 in H.
    destruct (to_datetime (w_date r)) as [d | e]; [| discriminate].
    cbn [bind] in H.
    destruct (mapM weight_record_of l) as [ds | e]; [| discriminate].
    cbn [bind] in H. injection H as <-. cbn [map Weight]. f_equal. now apply IH.
Qed.

End SummaryFacts.

(** X12. On a store of the health tracker that is not empty, the Latest
    Weight is the weight of the record with the latest date, and among the
    records of that date of the one entered last; Change is that weight
    minus the weight of the record with the earliest date (entered first
    among those of that date), and "N/A" when there is one record only.
    Dates are compared as the ISO texts stored. *)
Theorem latest_and_change_follow_the_dates (file : Sqlite.database) :
  well_formed file ->
  dated_rows (Sqlite.stored_weights file) ->
  Sqlite.stored_weights file <> [] ->
  exists loaded data s first last,
    Sqlite.load_weights (Sqlite.init_db file) = Ok loaded /\
    mapM HealthTracker.weight_record_of loaded = Ok data /\
    HealthTrackerDisplay.weight_summary data = Some s /\
    In first (Sqlite.stored_weights file) /\
    In last (Sqlite.stored_weights file) /\
    (forall r, In r (Sqlite.stored_weights file) ->
       Sqlite.text_leb (Sqlite.w_date r) (Sqlite.w_date last) = true /\
       (Sqlite.w_date r = Sqlite.w_date last -> (Sqlite.w_id r <= Sqlite.w_id last)%Z)) /\
    (forall r, In r (Sqlite.stored_weights file) ->
       Sqlite.text_leb (Sqlite.w_date first) (Sqlite.w_date r) = true /\
       (Sqlite.w_date r = Sqlite.w_date first -> (Sqlite.w_id first <= Sqlite.w_id r)%Z)) /\
    PandasOps.latest_weight s = Sqlite.w_weight last /\
    PandasOps.change s
    = if (1 <? Sqlite.count_weights file)%nat
      then Some (Sqlite.w_weight last - Sqlite.w_weight first)
      else None.
Proof.
  intros [Hids _] Hdated Hne.
  set (stored := Sqlite.stored_weights file) in *.
  set (loaded := stable_sort Sqlite.date_leb stored).
  pose proof (stable_sort_perm Sqlite.date_leb stored) as Hperm. fold loaded in Hperm.
  assert (Hlen : List.length loaded = List.length stored) by apply stable_sort_length.
  assert (Hlne : loaded <> []).
  { intros E. rewrite E in Hlen. destruct stored; [congruence | discriminate]. }
  pose proof (stable_sort_keyed Sqlite.date_leb SqliteFacts.date_leb_total
                SqliteFacts.date_leb_trans _ stored Hids) as Hsorted.
  fold loaded in Hsorted.
  destruct (StatsFacts.sorted_ends _ loaded Hsorted Hlne)
    as (first & last & Hfirst & Hlast & Hfin & Hlin & Hfall & Hlall).
  assert (Hd : dated_rows loaded) by now apply Forall_stable_sort.
  destruct (ExportFacts.weight_records_of_dated loaded Hd) as (data & Hdata & _).
  pose proof (SummaryFacts.mapM_weight_record_of_weights loaded data Hdata) as Hweights.
  destruct (StatsFacts.summary_stats_present (map Sqlite.w_weight loaded))
    as (wl & wf & a & Hwl & Hwf & _ & _ & Hs); [now apply PageFacts.map_not_nil |].
  rewrite StatsFacts.iloc_last_map, Hlast in Hwl. cbn [option_map] in Hwl. injection Hwl as <-.
  rewrite StatsFacts.iloc_first_map, Hfirst in Hwf. cbn [option_map] in Hwf. injection Hwf as <-.
  rewrite length_map, Hlen in Hs.
  exists loaded, data. eexists. exists first, last.
  split; [apply SqliteFacts.load_weights_init_db |]. split; [exact Hdata |].
  split; [unfold HealthTrackerDisplay.weight_summary; rewrite Hweights; exact Hs |].
  split; [apply (Permutation_in _ (Permutation_sym Hperm)); exact Hfin |].
  split; [apply (Permutation_in _ (Permutation_sym Hperm)); exact Hlin |].
  rewrite Forall_forall in Hfall, Hlall.
  split; [| split; [| split]].
  - intros r Hr. apply (Permutation_in _ Hperm) in Hr.
    destruct (Hlall r Hr) as [-> | [Hle Htie]].
    + split; [apply SqliteFacts.string_leb_refl | lia].
    + split; [exact Hle |]. intros E.
      assert (Sqlite.date_leb last r = true)
        by (unfold Sqlite.date_leb, Sqlite.text_leb; cbn; rewrite E;
            apply SqliteFacts.string_leb_refl).
      specialize (Htie H). cbn in Htie. lia.
  - intros r Hr. apply (Permutation_in _ Hperm) in Hr.
    destruct (Hfall r Hr) as [-> | [Hle Htie]].
    + split; [apply SqliteFacts.string_leb_refl | lia].
    + split; [exact Hle |]. intros E.
      assert (Sqlite.date_leb r first = true)
        by (unfold Sqlite.date_leb, Sqlite.text_leb; cbn; rewrite E;
            apply SqliteFacts.string_leb_refl).
      specialize (Htie H). cbn in Htie. lia.
  - reflexivity.
  - cbn [PandasOps.change]. now rewrite HealthTrackerFacts.count_weights_length.
Qed.

Lemma latest_and_change_follow_the_dates_witness :
  exists loaded data s first last,
    Sqlite.load_weights (Sqlite.init_db (file ties_world)) = Ok loaded /\
    mapM HealthTracker.weight_record_of loaded = Ok data /\
    HealthTrackerDisplay.weight_summary data = Some s /\
    In first (Sqlite.stored_weights (file ties_world)) /\
    In last (Sqlite.stored_weights (file ties_world)) /\
    PandasOps.latest_weight s = Sqlite.w_weight last /\
    PandasOps.change s = Some (Sqlite.w_weight last - Sqlite.w_weight first).
Proof.
  destruct (latest_and_change_follow_the_dates (file ties_world))
    as (loaded & data & s & first & last & H1 & H2 & H3 & H4 & H5 & _ & _ & H6 & H7).
  - split; unfold ids_increasing; simpl; repeat (constructor; simpl; try reflexivity).
  - simpl. repeat (constructor; [simpl; dated_row |]). constructor.
  - discriminate.
  - exists loaded, data, s, first, last. repeat (split; [assumption |]). exact H7.
Defined.

Example ties_world_summary :
  option_map (fun s => (Qred (PandasOps.latest_weight s), option_map Qred (PandasOps.change s)))
    (HealthTrackerDisplay.weight_summary
       [HealthTracker.mk_weight_record 2 (PyDate.mkdate 2024 1 1) 70 (Some 15) (Some "am");
        HealthTracker.mk_weight_record 3 (PyDate.mkdate 2024 1 1) 70.5 None (Some "pm");
        HealthTracker.mk_weight_record 1 (PyDate.mkdate 2024 1 2) 71 None (Some "")])
  = Some (71, Some 1).
Proof. reflexivity. Qed.

(** X13. In the prototype, over a log that is not empty, the Latest Weight
    is the weight of an entry of the latest date and Change is that weight
    minus the weight of an entry of the earliest date, whatever the order
    in which the entries were added; Change is "N/A" for a log of one
    entry. *)
Theorem prototype_latest_and_change_follow_the_dates (ss : WeightTracker.session_state) :
  WeightTracker.setup ss <> [] ->
  exists s first last,
    WeightTrackerDisplay.summary (WeightTracker.listing ss) = Some s /\
    In first (WeightTracker.setup ss) /\
    In last (WeightTracker.setup ss) /\
    (forall e, In e (WeightTracker.setup ss) ->
       PyDate.leb (WeightTracker.Date first) (WeightTracker.Date e) = true /\
       PyDate.leb (WeightTracker.Date e) (WeightTracker.Date last) = true) /\
    PandasOps.latest_weight s = WeightTracker.Weight last /\
    PandasOps.change s
    = if (1 <? List.length (WeightTracker.setup ss))%nat
      then Some (WeightTracker.Weight last - WeightTracker.Weight first)
      else None.
Proof.
  intros Hne. unfold WeightTracker.listing.
  set (log := WeightTracker.setup ss) in *.
  set (data := WeightTracker.sort_values_Date log).
  pose proof (stable_sort_perm
                (fun a b => PyDate.leb (WeightTracker.Date a) (WeightTracker.Date b)) log)
    as Hperm.
  fold (WeightTracker.sort_values_Date log) in Hperm. fold data in Hperm.
  assert (Hlen : List.length data = List.length log) by apply stable_sort_length.
  assert (Hdne : data <> []).
  { intros E. rewrite E in Hlen. destruct log; [congruence | discriminate]. }
  assert (Hsorted : StronglySorted
                      (fun a b => PyDate.leb (WeightTracker.Date a) (WeightTracker.Date b) = true)
                      data).
  { apply (stable_sort_sorted
             (fun a b => PyDate.leb (WeightTracker.Date a) (WeightTracker.Date b))).
    - intros a b. apply PyDateFacts.leb_total.
    - intros a b c. apply PyDateFacts.leb_trans. }
  destruct (StatsFacts.sorted_ends _ data Hsorted Hdne)
    as (first & last & Hfirst & Hlast & Hfin & Hlin & Hfall & Hlall).
  destruct (StatsFacts.summary_stats_present (map WeightTracker.Weight data))
    as (wl & wf & a & Hwl & Hwf & _ & _ & Hs); [now apply PageFacts.map_not_nil |].
  rewrite StatsFacts.iloc_last_map, Hlast in Hwl. cbn [option_map] in Hwl. injection Hwl as <-.
  rewrite StatsFacts.iloc_first_map, Hfirst in Hwf. cbn [option_map] in Hwf. injection Hwf as <-.
  rewrite length_map, Hlen in Hs.
  eexists. exists first, last.
  split; [exact Hs |].
  split; [apply (Permutation_in _ (Permutation_sym Hperm)); exact Hfin |].
  split; [apply (Permutation_in _ (Permutation_sym Hperm)); exact Hlin |].
  rewrite Forall_forall in Hfall, Hlall.
  assert (Hrefl : forall d, PyDate.leb d d = true)
    by (intros d; destruct (PyDateFacts.leb_total d d); assumption).
  split; [| split; reflexivity].
  intros e He. apply (Permutation_in _ Hperm) in He. split.
  - destruct (Hfall e He) as [-> | H]; [apply Hrefl | exact H].
  - destruct (Hlall e He) as [-> | H]; [apply Hrefl | exact H].
Qed.

Lemma prototype_latest_and_change_follow_the_dates_witness :
  exists s first last,
    WeightTrackerDisplay.summary (WeightTracker.listing (session ties_world)) = Some s /\
    In first (WeightTracker.setup (session ties_world)) /\
    In last (WeightTracker.setup (session ties_world)) /\
    PandasOps.latest_weight s = WeightTracker.Weight last /\
    PandasOps.change s = Some (WeightTracker.Weight last - WeightTracker.Weight first).
Proof.
  destruct (prototype_latest_and_change_follow_the_dates (session ties_world))
    as (s & first & last & H1 & H2 & H3 & _ & H4 & H5).
  - discriminate.
  - exists s, first, last. repeat (split; [assumption |]). exact H5.
Defined.

(* ================================================================= *)
(** ** The log tables *)

Module TableFacts.
Import PyDate Pandas PandasOps.

Lemma insert_sorted_map {A B : Type} (f : A -> B) (leb : B -> B -> bool) (x : A) (l : list A) :
  insert_sorted leb (f x) (map f l)
  = map f (insert_sorted (fun a b => leb (f a) (f b)) x l).
Proof.
  induction l as [| y l IH]; simpl; [reflexivity |].
  destruct (leb (f x) (f y)); simpl; [reflexivity | now rewrite IH].
Qed.

(** Sorting the rows made from records is sorting the records. *)
Lemma stable_sort_map {A B : Type} (f : A -> B) (leb : B -> B -> bool) (l : list A) :
  stable_sort leb (map f l) = map f (stable_sort (fun a b => leb (f a) (f b)) l).
Proof.
  induction l as [| x l IH]; simpl; [reflexivity |].
  now rewrite IH, insert_sorted_map.
Qed.

Lemma map_fst_combine {A B : Type} (a : list A) (b : list B) :
  List.length b = List.length a -> map fst (combine a b) = a.
Proof.
  revert b. induction a as [| x a IH]; intros [| y b] H; simpl in *;
    try reflexivity; try discriminate.
  f_equal. apply IH. lia.
Qed.

(** Records sorted by a key that is their date, later dates first. *)
Lemma sorted_later_first {A : Type} (date_of : A -> date) (l : list A) :
  let sorted := stable_sort (fun a b => PyDate.leb (date_of b) (date_of a)) l in
  Permutation l sorted /\ descending (map date_of sorted).
Proof.
  split; [apply stable_sort_perm |].
  apply StronglySorted_map.
  apply (stable_sort_sorted (fun a b => PyDate.leb (date_of b) (date_of a))).
  - intros a b. destruct (PyDateFacts.leb_total (date_of a) (date_of b)); auto.
  - intros a b c Hab Hbc. exact (PyDateFacts.leb_trans _ _ _ Hbc Hab).
Qed.

End TableFacts.

(** The cells of a table row of the weight log and of the blood-pressure log. *)
Definition weight_log_row (r : HealthTracker.weight_record) : list Pandas.cell :=
  [Pandas.Timestamp (HealthTracker.Date r); Pandas.Float (HealthTracker.Weight r);
   Pandas.float_cell (HealthTracker.Body_Fat r); Pandas.str_cell (HealthTracker.Notes r)].

Definition bp_log_row (r : HealthTracker.bp_record) : list Pandas.cell :=
  [Pandas.Timestamp (HealthTracker.bp_Date r); Pandas.Int (HealthTracker.Systolic r);
   Pandas.Int (HealthTracker.Diastolic r); Pandas.str_cell (HealthTracker.bp_Notes r)].

(** X14. Each log table shows the four displayed columns and nothing else
    (no id, no Trend), one row per record, each row holding the fields of its
    record, with the latest date first. *)
Theorem log_tables_show_latest_first
    (data : list HealthTracker.weight_record) (data_bp : list HealthTracker.bp_record)
    (entries : list WeightTracker.entry) :
  (exists t sorted,
     HealthTrackerDisplay.weight_log data = Some t /\
     Pandas.columns t = ["Date"; "Weight"; "Body Fat %"; "Notes"] /\
     Pandas.values t = map weight_log_row sorted /\
     Permutation data sorted /\
     descending (map HealthTracker.Date sorted)) /\
  (exists t sorted,
     HealthTrackerDisplay.bp_log data_bp = Some t /\
     Pandas.columns t = ["Date"; "Systolic"; "Diastolic"; "Notes"] /\
     Pandas.values t = map bp_log_row sorted /\
     Permutation data_bp sorted /\
     descending (map HealthTracker.bp_Date sorted)) /\
  (exists t sorted,
     WeightTrackerDisplay.log_table entries = Some t /\
     Pandas.columns t = ["Date"; "Weight"; "Body Fat %"; "Notes"] /\
     Pandas.values t = map WeightTracker.entry_cells sorted /\
     Permutation entries sorted /\
     descending (map WeightTracker.Date sorted)).
Proof.
  repeat apply conj.
  - destruct (TableFacts.sorted_later_first HealthTracker.Date data) as [Hperm Hdesc].
    eexists. eexists. split; [| split; [| split; [| split; [exact Hperm | exact Hdesc]]]].
    + unfold HealthTrackerDisplay.weight_log, PandasOps.select.
      change (PandasOps.get_locs HealthTracker.weight_table_columns
                (Pandas.columns (HealthTracker.weight_frame data)))
        with (Some [1; 2; 3; 4]%nat).
      cbv iota beta. unfold PandasOps.sort_values_descending. cbn [Pandas.columns].
      change (PandasOps.get_loc "Date" HealthTracker.weight_table_columns) with (Some 0%nat).
      cbv iota beta. reflexivity.
    + reflexivity.
    + cbn [Pandas.values].
      change (Pandas.values (HealthTracker.weight_frame data))
        with (map HealthTracker.weight_cells data).
      rewrite map_map.
      change (map (fun x => map (fun i => nth i (HealthTracker.weight_cells x) Pandas.NaN)
                              [1; 2; 3; 4]%nat) data)
        with (map weight_log_row data).
      apply (TableFacts.stable_sort_map weight_log_row).
  - destruct (TableFacts.sorted_later_first HealthTracker.bp_Date data_bp) as [Hperm Hdesc].
    eexists. eexists. split; [| split; [| split; [| split; [exact Hperm | exact Hdesc]]]].
    + unfold HealthTrackerDisplay.bp_log, PandasOps.select.
      change (PandasOps.get_locs HealthTracker.bp_table_columns
                (Pandas.columns (HealthTracker.bp_frame data_bp)))
        with (Some [1; 2; 3; 4]%nat).
      cbv iota beta. unfold PandasOps.sort_values_descending. cbn [Pandas.columns].
      change (PandasOps.get_loc "Date" HealthTracker.bp_table_columns) with (Some 0%nat).
      cbv iota beta. reflexivity.
    + reflexivity.
    + cbn [Pandas.values].
      change (Pandas.values (HealthTracker.bp_frame data_bp))
        with (map HealthTracker.bp_cells data_bp).
      rewrite map_map.
      change (map (fun x => map (fun i => nth i (HealthTracker.bp_cells x) Pandas.NaN)
                              [1; 2; 3; 4]%nat) data_bp)
        with (map bp_log_row data_bp).
      apply (TableFacts.stable_sort_map bp_log_row).
  - destruct (TableFacts.sorted_later_first WeightTracker.Date entries) as [Hperm Hdesc].
    destruct (ExportFacts.entry_csv entries) as (_ & Hlines & _ & _).
    change (Pandas.lines (Pandas.to_csv (WeightTracker.frame entries)))
      with (Pandas.values (WeightTracker.frame entries)) in Hlines.
    eexists. eexists. split; [| split; [| split; [| split; [exact Hperm | exact Hdesc]]]].
    + unfold WeightTrackerDisplay.log_table, PandasOps.select.
      change (PandasOps.get_locs WeightTracker.table_columns
                (Pandas.columns (WeightTracker.frame entries)))
        with (Some [0; 1; 2; 3]%nat).
      cbv iota beta. unfold PandasOps.sort_values_descending. cbn [Pandas.columns].
      change (PandasOps.get_loc "Date" WeightTracker.table_columns) with (Some 0%nat).
      cbv iota beta. reflexivity.
    + reflexivity.
    + cbn [Pandas.values]. rewrite Hlines, map_map.
      change (map (fun x : WeightTracker.entry * pyfloat =>
                     map (fun i => nth i (WeightTracker.entry_cells (fst x)
                                          ++ [Pandas.float_cell (snd x)]) Pandas.NaN)
                       [0; 1; 2; 3]%nat)
                (combine entries (WeightTracker.Trend entries)))
        with (map (fun x : WeightTracker.entry * pyfloat => WeightTracker.entry_cells (fst x))
                (combine entries (WeightTracker.Trend entries))).
      rewrite <- (map_map fst WeightTracker.entry_cells).
      rewrite TableFacts.map_fst_combine by apply rolling_length.
      apply (TableFacts.stable_sort_map WeightTracker.entry_cells).
Qed.

Example weight_log_example :
  option_map Pandas.values (HealthTrackerDisplay.weight_log no_bodyfat_data)
  = Some [[Pandas.Timestamp (PyDate.mkdate 2024 1 2); Pandas.Float 71; Pandas.NaN; Pandas.Str ""];
          [Pandas.Timestamp (PyDate.mkdate 2024 1 1); Pandas.Float 70; Pandas.NaN; Pandas.Str ""]].
Proof. reflexivity. Qed.
